(** * MCP code generator: orchestrator pipeline and usage ledger

    A shallow embedding of
    - [model_tracker.py]  (the file-backed usage ledger and the tracking
      LLM wrapper),
    - [orchestrator/orchestrator_client.py]  (the remote tool client and the
      five-stage pipeline),
    - [gui/gradio_app.py]  (the front-end handler and its input validation),
    - [mcp_servers/*.py]  (the three LLM-backed tool servers),
    followed by the properties of the specification that concern them.

    Conventions.  A Python [str] is a [string] whose characters are read as
    code points below 256.  A Python [int] is a [Z].  A [dict] used as a map
    is a [gmap].  Code that raises returns [Raise e]; code with effects is a
    function on an explicit [World]. *)

From Stdlib Require Import ZArith String Ascii List Bool Lia.
From stdpp Require Import base option list gmap strings fin_maps pretty.

Local Open Scope Z_scope.
Local Open Scope string_scope.

(* ===================================================================== *)
(** ** Python strings *)
(* ===================================================================== *)

Module PyStr.

(** [str.isspace] on one character, for code points below 256: the
    controls TAB..CR, FS..US, the space, NEL (0x85) and NBSP (0xA0). *)
Definition isspace (c : ascii) : bool :=
  let n := N_of_ascii c in
  ((9 <=? n) && (n <=? 13) || (28 <=? n) && (n <=? 32)
   || (n =? 133) || (n =? 160))%N.

(** [bool(s)]: a string is truthy when it is not empty. *)
Definition truthy (s : string) : bool :=
  match s with EmptyString => false | String _ _ => true end.

(** [s.lstrip()] *)
Fixpoint lstrip (s : string) : string :=
  match s with
  | EmptyString => EmptyString
  | String c s' => if isspace c then lstrip s' else s
  end.

(** [s.rstrip()] *)
Fixpoint rstrip (s : string) : string :=
  match s with
  | EmptyString => EmptyString
  | String c s' =>
      match rstrip s' with
      | EmptyString => if isspace c then EmptyString else String c EmptyString
      | r => String c r
      end
  end.

(** [s.strip()] *)
Definition strip (s : string) : string := rstrip (lstrip s).

(** [s.split()]: the maximal runs of characters that are not whitespace.
    [word] holds the characters of the run being read. *)
Fixpoint split_from (word : string) (s : string) : list string :=
  match s with
  | EmptyString => if truthy word then [word] else []
  | String c s' =>
      if isspace c
      then (if truthy word then word :: split_from EmptyString s'
            else split_from EmptyString s')
      else split_from (word +:+ String c EmptyString) s'
  end.

Definition split (s : string) : list string := split_from EmptyString s.

(** [s.startswith(p)] *)
Fixpoint startswith (p s : string) : bool :=
  match p, s with
  | EmptyString, _ => true
  | String _ _, EmptyString => false
  | String a p', String b s' => Ascii.eqb a b && startswith p' s'
  end.

(** [sub in s] *)
Fixpoint contains (sub s : string) : bool :=
  startswith sub s
  || match s with
     | EmptyString => false
     | String _ s' => contains sub s'
     end.

(** [sep.join(parts)] *)
Fixpoint join (sep : string) (parts : list string) : string :=
  match parts with
  | [] => EmptyString
  | [p] => p
  | p :: rest => p +:+ sep +:+ join sep rest
  end.

(** The one-character string holding a line feed. *)
Definition nl : string := String (ascii_of_nat 10) EmptyString.

(** Every character of [s] is whitespace. *)
Definition all_space (s : string) : Prop :=
  Forall (fun c => isspace c = true) (list_ascii_of_string s).

(** [sub] occurs in [s]. *)
Definition substring_of (sub s : string) : Prop :=
  exists l r : string, s = l +:+ sub +:+ r.

End PyStr.

(* ===================================================================== *)
(** ** Python values returned by a tool *)
(* ===================================================================== *)

(** The value a tool invocation hands back.  Text is [VStr]; the other
    constructors are the values that are not text.  [VObj shown] is any
    other object, given by what [str()] makes of it. *)
Inductive PyVal :=
| VStr (s : string)
| VNone
| VBool (b : bool)
| VInt (z : Z)
| VObj (shown : string).

(** [isinstance(v, str)] *)
Definition isinstance_str (v : PyVal) : bool :=
  match v with VStr _ => true | _ => false end.

(** [str(v)] *)
Definition str (v : PyVal) : string :=
  match v with
  | VStr s => s
  | VNone => "None"
  | VBool true => "True"
  | VBool false => "False"
  | VInt z => pretty z
  | VObj shown => shown
  end.

(* ===================================================================== *)
(** ** model_tracker.py: the usage ledger *)
(* ===================================================================== *)

(** One counter record [{"numApiCalls": int, "totalTokens": int}]. *)
Record ModelStats := mkStats { numApiCalls : Z; totalTokens : Z }.

(** The ledger [{agent_name: {model_name: stats}}]. *)
Abbreviation Usage := (gmap string (gmap string ModelStats)).

(** What [_USAGE_FILE] holds on disk.  A file whose text parses as JSON of
    another shape than a ledger is not modelled.  [Holds u] stands for the
    dictionary the text parses to, not for the text: the order in which
    the keys are written is not kept. *)
Inductive UsageFile :=
| Missing                  (** no such file *)
| Unreadable               (** the file exists, [read_text] raises *)
| Unparseable (raw : string) (** the file's text is not JSON: [json.loads] raises *)
| Holds (u : Usage).       (** the file is the JSON rendering of the ledger [u] *)

Module ModelTracker.

(** [_USAGE_FILE.exists()] *)
Definition exists_ (f : UsageFile) : bool :=
  match f with Missing => false | _ => true end.

(** [json.loads(_USAGE_FILE.read_text())]; [None] when it raises. *)
Definition read_json (f : UsageFile) : option Usage :=
  match f with Holds u => Some u | _ => None end.

Definition _load_usage (f : UsageFile) : Usage :=
  if exists_ f then
    match read_json f with
    | Some u => u
    | None => ∅          (* except Exception: return {} *)
    end
  else ∅.

(** [_USAGE_FILE.write_text(json.dumps(data, indent=2))]; what is written
    parses back to [data]. *)
Definition _save_usage (data : Usage) : UsageFile := Holds data.

Definition _estimate_tokens (text : string) : Z :=
  let words := PyStr.split text in
  Z.max (Z.of_nat (List.length words)) 1.

(** The result object of an LLM call, as far as [_extract_text] looks at
    it: its [content] attribute and what [str()] makes of the object. *)
Inductive Part :=
| PartDict (text : option string)   (** a dict, with or without a "text" key *)
| PartOther (shown : string).       (** anything else, by its [str()] *)

Inductive Content :=
| ContentStr (s : string)
| ContentList (parts : list Part)
| ContentOther (shown : string)
| ContentNone.                      (** no [content] attribute, or [None] *)

Record LLMResult := mkResult { content : Content; result_str : string }.

Definition part_text (p : Part) : option string :=
  match p with
  | PartDict t => t
  | PartOther shown => Some shown
  end.

Definition _extract_text (result : LLMResult) : string :=
  match content result with
  | ContentStr s => s
  | ContentList parts => PyStr.join PyStr.nl (omap part_text parts)
  | ContentOther shown => shown
  | ContentNone => result_str result
  end.

Definition zero_stats : ModelStats := mkStats 0 0.

Definition _update_usage (agent_name model_name : string) (num_tokens : Z)
    (f : UsageFile) : UsageFile :=
  let usage := _load_usage f in
  let usage :=
    if decide (is_Some (usage !! agent_name)) then usage
    else <[agent_name := ∅]> usage in
  let agent_stats := default ∅ (usage !! agent_name) in
  let model_stats := default zero_stats (agent_stats !! model_name) in
  let model_stats :=
    mkStats (numApiCalls model_stats + 1) (totalTokens model_stats) in
  let model_stats :=
    mkStats (numApiCalls model_stats) (totalTokens model_stats + num_tokens) in
  let usage := <[agent_name := <[model_name := model_stats]> agent_stats]> usage in
  _save_usage usage.

Definition get_model_usage (f : UsageFile) : Usage := _load_usage f.

(** Reading one counter of a ledger. *)
Definition entry (u : Usage) (agent model : string) : option ModelStats :=
  u !! agent ≫= (.!! model).

(** The number of calls the counters of one agent record, and the number
    a whole ledger records. *)
Definition calls_in (ms : gmap string ModelStats) : Z :=
  map_fold (fun _ st acc => numApiCalls st + acc) 0 ms.

Definition total_calls (u : Usage) : Z :=
  map_fold (fun _ ms acc => calls_in ms + acc) 0 u.


(** [record] applied to each token count of a list in turn. *)
Definition record_all (agent model : string) (tokens : list Z)
    (f : UsageFile) : UsageFile :=
  fold_left (fun f t => _update_usage agent model t f) tokens f.

End ModelTracker.

(* ===================================================================== *)
(** ** Exceptions, results and the world the pipeline runs in *)
(* ===================================================================== *)

(** The exceptions that reach the orchestrator, each with its message
    ([str(e)]). *)
Inductive Exn :=
| ValueError (msg : string)      (** raised by [_call_mcp_tool]: tool not found *)
| TransportError (msg : string)  (** the server process, handshake or stream failed *)
| ToolException (msg : string)   (** the invoked tool raised *)
| gr_Error (msg : string).       (** [gr.Error], shown to the user *)

Definition exn_str (e : Exn) : string :=
  match e with
  | ValueError msg | TransportError msg | ToolException msg | gr_Error msg => msg
  end.

Inductive Result (A : Type) :=
| Return (a : A)
| Raise (e : Exn).
Arguments Return {A} a.
Arguments Raise {A} e.

(** The argument dictionary of a tool call, in the order it is written. *)
Abbreviation Args := (list (string * string)).

Inductive Event :=
| Called (server_script tool_name : string) (arguments : Args)
    (** [_call_mcp_tool] was entered with these arguments *)
| ServerStarted (server_script : string)
    (** a server process was spawned and its session initialised *)
| ToolInvoked (server_script tool_name : string) (arguments : Args)
              (outcome : Result PyVal)
    (** [target_tool.ainvoke(arguments)] ran, with its outcome *)
| ZipCreated (app_code tests_code description : string).
    (** [create_zip_from_strings] ran on these three texts *)

(** What running a piece of code leaves behind: its result, the ledger
    file afterwards (the server processes write it), and the record of what
    ran, oldest first. *)
Record Outcome (A : Type) := mkOut {
  result : Result A;
  file_after : UsageFile;
  trace : list Event
}.
Arguments mkOut {A} result file_after trace.
Arguments result {A} o.
Arguments file_after {A} o.
Arguments trace {A} o.

(** Code with effects and exceptions, run from a state of the ledger file. *)
Definition M (A : Type) : Type := UsageFile -> Outcome A.

(** An outcome, told after the events [t] that came before it. *)
Definition after {A} (t : list Event) (o : Outcome A) : Outcome A :=
  mkOut (result o) (file_after o) (t ++ trace o).

Global Instance M_ret : MRet M := fun A a f => mkOut (Return a) f [].
Global Instance M_bind : MBind M := fun A B k m f =>
  let o := m f in
  match result o with
  | Return a => after (trace o) (k a (file_after o))
  | Raise e => mkOut (Raise e) (file_after o) (trace o)
  end.

Definition raise {A} (e : Exn) : M A := fun f => mkOut (Raise e) f [].

(** [try: body  except Exception as e: handler(e)] *)
Definition try_except {A} (body : M A) (handler : Exn -> M A) : M A :=
  fun f =>
    let o := body f in
    match result o with
    | Return a => o
    | Raise e => after (trace o) (handler e (file_after o))
    end.

Definition log (e : Event) : M unit := fun f => mkOut (Return tt) f [e].

(** A tool of a server's catalog.  Running it may read and rewrite the
    ledger file, and returns a value or raises. *)
Record Tool := mkTool {
  name : string;
  ainvoke : Args -> UsageFile -> Result PyVal * UsageFile
}.

(** The programs behind the server scripts: the catalog a script serves,
    or [None] when the process cannot be started or spoken to. *)
Abbreviation Servers := (string -> option (list Tool)).

(** Reading a trace: the calls made for a tool name, the outcomes of the
    invocations of a tool name, the texts handed to the packager, and the
    servers that were started. *)
Module Trace.

Definition calls_to (tool_name : string) (t : list Event) : list (string * Args) :=
  omap (fun e => match e with
                 | Called s n a => if String.eqb n tool_name then Some (s, a) else None
                 | _ => None
                 end) t.

Definition results_of (tool_name : string) (t : list Event) : list (Result PyVal) :=
  omap (fun e => match e with
                 | ToolInvoked _ n _ r => if String.eqb n tool_name then Some r else None
                 | _ => None
                 end) t.

Definition packaged (t : list Event) : list (string * string * string) :=
  omap (fun e => match e with
                 | ZipCreated a ts d => Some (a, ts, d)
                 | _ => None
                 end) t.

Definition started (t : list Event) : list string :=
  omap (fun e => match e with
                 | ServerStarted s => Some s
                 | _ => None
                 end) t.

End Trace.

(* ===================================================================== *)
(** ** [repr] of strings and lists of strings *)
(* ===================================================================== *)

Module PyRepr.

Definition squote : ascii := ascii_of_nat 39.
Definition dquote : ascii := ascii_of_nat 34.
Definition bslash : ascii := ascii_of_nat 92.

Definition has_char (c : ascii) (s : string) : bool :=
  existsb (Ascii.eqb c) (list_ascii_of_string s).

(** [str.isprintable] on one character, for code points below 256. *)
Definition isprintable (c : ascii) : bool :=
  let n := N_of_ascii c in
  ((32 <=? n) && (n <? 127) || (161 <=? n) && negb (n =? 173))%N.

Definition hex_digit (n : N) : ascii :=
  if (n <? 10)%N then ascii_of_N (48 + n) else ascii_of_N (87 + n).

Definition escape (quote c : ascii) : string :=
  let n := N_of_ascii c in
  if Ascii.eqb c quote || Ascii.eqb c bslash then String bslash (String c "")
  else if (n =? 9)%N then "\t"
  else if (n =? 10)%N then "\n"
  else if (n =? 13)%N then "\r"
  else if isprintable c then String c ""
  else "\x" +:+ String (hex_digit (n / 16)) (String (hex_digit (n mod 16)) "").

Fixpoint escape_all (quote : ascii) (s : string) : string :=
  match s with
  | EmptyString => EmptyString
  | String c s' => escape quote c +:+ escape_all quote s'
  end.

(** [repr(s)] for a string: single quotes, unless the string has a single
    quote and no double quote. *)
Definition repr_str (s : string) : string :=
  let quote := if has_char squote s && negb (has_char dquote s)
               then dquote else squote in
  String quote (escape_all quote s +:+ String quote "").

(** [repr(l)] for a list of strings. *)
Definition repr_list (l : list string) : string :=
  "[" +:+ PyStr.join ", " (map repr_str l) +:+ "]".

End PyRepr.

(* ===================================================================== *)
(** ** orchestrator/orchestrator_client.py *)
(* ===================================================================== *)

Module Orchestrator.
Section WithServers.

(** The project root, the server programs found under it, and the time
    stamp [create_zip_from_strings] takes from the clock. *)
Variable BASE_DIR : string.
Variable servers : Servers.
Variable timestamp : string.

(** [session.initialize()] and [load_mcp_tools(session)] on a freshly
    spawned server. *)
Definition load_mcp_tools (server_script : string) : M (list Tool) :=
  match servers server_script with
  | None => raise (TransportError server_script)
  | Some tools => _ ← log (ServerStarted server_script); mret tools
  end.

(** [await target_tool.ainvoke(arguments)] *)
Definition await_ainvoke (server_script : string) (tool : Tool)
    (arguments : Args) : M PyVal :=
  fun f =>
    let '(outcome, f') := ainvoke tool arguments f in
    mkOut outcome f' [ToolInvoked server_script (name tool) arguments outcome].

Definition tool_not_found (tool_name server_script : string)
    (available : list string) : string :=
  "Tool '" +:+ tool_name +:+ "' not found on server '" +:+ server_script
  +:+ "'. Available tools: " +:+ PyRepr.repr_list available.

Definition _call_mcp_tool (server_script tool_name : string)
    (arguments : Args) : M PyVal :=
  _ ← log (Called server_script tool_name arguments);
  tools ← load_mcp_tools server_script;
  (* for tool in tools: if tool.name == tool_name: ...; break *)
  let target_tool := find (fun tool => String.eqb (name tool) tool_name) tools in
  match target_tool with
  | None =>
      let available := map name tools in
      raise (ValueError (tool_not_found tool_name server_script available))
  | Some target_tool => await_ainvoke server_script target_tool arguments
  end.

(** [orchestrator/zip_util.py], [create_zip_from_strings]: the packager,
    by the texts it is given and the path it returns. *)
Definition create_zip_from_strings (app_code tests_code description : string)
    : M string :=
  _ ← log (ZipCreated app_code tests_code description);
  mret (BASE_DIR +:+ "/generated_output/generated_app_" +:+ timestamp +:+ ".zip").

Definition get_model_usage : M Usage :=
  fun f => mkOut (Return (ModelTracker.get_model_usage f)) f [].

Definition refinement_server : string := BASE_DIR +:+ "/mcp_servers/refinement_server.py".
Definition codegen_server : string := BASE_DIR +:+ "/mcp_servers/codegen_server.py".
Definition testgen_server : string := BASE_DIR +:+ "/mcp_servers/testgen_server.py".

(** [if not isinstance(v, str): v = str(v)] *)
Definition as_text (v : PyVal) : string :=
  match v with
  | VStr s => s
  | other => str other
  end.

Definition _run_pipeline_async (description : string) : M (string * Usage) :=
  (* Step 1 *)
  plan ← _call_mcp_tool refinement_server "generate_plan"
           [("description", description)];
  let plan := as_text plan in
  (* Step 2 *)
  app_code ← _call_mcp_tool codegen_server "generate_app_code"
               [("description", description); ("plan", plan)];
  let app_code := as_text app_code in
  (* Step 3 *)
  tests_code ← _call_mcp_tool testgen_server "generate_tests"
                 [("app_code", app_code); ("description", description)];
  let tests_code := as_text tests_code in
  (* Step 4 *)
  feedback ← _call_mcp_tool refinement_server "review_code"
               [("app_code", app_code); ("tests", tests_code)];
  let feedback := as_text feedback in
  app_code ←
    (if negb (PyStr.contains "OK_TO_USE" feedback) then
       refined_code ← _call_mcp_tool refinement_server "refine_code"
                        [("app_code", app_code); ("feedback", feedback)];
       (* if isinstance(refined_code, str) and refined_code.strip(): *)
       match refined_code with
       | VStr refined =>
           if PyStr.truthy (PyStr.strip refined) then mret refined
           else mret app_code
       | _ => mret app_code
       end
     else mret app_code);
  (* Step 5 *)
  zip_path ← create_zip_from_strings app_code tests_code description;
  (* Step 6 *)
  usage ← get_model_usage;
  mret (zip_path, usage).

(** [asyncio.run(_run_pipeline_async(description))] *)
Definition run_pipeline (description : string) : M (string * Usage) :=
  _run_pipeline_async description.

End WithServers.
End Orchestrator.

(* ===================================================================== *)
(** ** gui/gradio_app.py *)
(* ===================================================================== *)

Module GradioApp.
Section WithServers.

Variable BASE_DIR : string.
Variable servers : Servers.
Variable timestamp : string.

Definition generate_app_and_tests (description : string) : M (string * Usage) :=
  if negb (PyStr.truthy description) || negb (PyStr.truthy (PyStr.strip description))
  then raise (gr_Error "Please enter a description for the desired application.")
  else
    try_except
      (Orchestrator.run_pipeline BASE_DIR servers timestamp (PyStr.strip description))
      (fun e => raise (gr_Error ("Generation failed: " +:+ exn_str e))).

End WithServers.
End GradioApp.

(* ===================================================================== *)
(** ** model_tracker.py: the tracking LLM wrapper *)
(* ===================================================================== *)

(** A constructed chat model: its [model] attribute and what the library's
    own [invoke] does on a prompt. *)
Record LLM := mkLLM {
  model : string;
  super_invoke : string -> Result ModelTracker.LLMResult
}.

Module Tracking.

(** [TrackingChatGoogleGenerativeAI.invoke(prompt, agent_name=...)];
    [agent_name] is [None] where the caller leaves it out. *)
Definition invoke (self : LLM) (prompt : string) (agent_name : option string)
    (f : UsageFile) : Result ModelTracker.LLMResult * UsageFile :=
  let agent_name := default "UnknownAgent" agent_name in
  match super_invoke self prompt with
  | Raise e => (Raise e, f)
  | Return result =>
      let text := ModelTracker._extract_text result in
      let tokens := ModelTracker._estimate_tokens text in
      (Return result, ModelTracker._update_usage agent_name (model self) tokens f)
  end.

End Tracking.

(* ===================================================================== *)
(** ** mcp_servers/: the three tool servers *)
(* ===================================================================== *)

Module McpServers.
Section WithLLM.

(** The library's constructor of a chat model, which raises when it finds
    no API key, and the instruction texts of the five prompts as the
    server scripts spell them. *)
Variable ChatGoogleGenerativeAI : string -> Result LLM.
Variable plan_instructions review_instructions refine_instructions : string.
Variable codegen_instructions testgen_instructions : string.

(** [_get_llm()] in a fresh server process: the model, or the error text. *)
Definition _get_llm : option LLM * option string :=
  match ChatGoogleGenerativeAI "gemini-2.5-flash" with
  | Return llm => (Some llm, None)
  | Raise e => (None, Some ("LLM initialization failed: " +:+ exn_str e))
  end.

(** [_get_text(result)]; [_extract_text] does not raise here. *)
Definition _get_text (result : ModelTracker.LLMResult) : string :=
  ModelTracker._extract_text result.

(** The body shared by the five tools: get the model or return the error
    text, invoke it on the prompt under [agent_name], return the text. *)
Definition call_llm (prompt : string) (agent_name : option string)
    (f : UsageFile) : Result string * UsageFile :=
  match _get_llm with
  | (Some llm, None) =>
      match Tracking.invoke llm prompt agent_name f with
      | (Return result, f') => (Return (_get_text result), f')
      | (Raise e, f') => (Raise (ToolException (exn_str e)), f')
      end
  | (_, err) => (Return ("ERROR: " +:+ default "None" err), f)
  end.

Definition nl := PyStr.nl.

(* refinement_server.py *)

Definition generate_plan (description : string) :=
  let prompt := PyStr.strip plan_instructions +:+ nl +:+ nl
                +:+ "Application Description:" +:+ nl
                +:+ PyStr.strip description +:+ nl in
  call_llm prompt None.

Definition review_code (app_code tests : string) :=
  let prompt := PyStr.strip review_instructions +:+ nl +:+ nl
                +:+ "APP CODE:" +:+ nl +:+ app_code +:+ nl +:+ nl
                +:+ "TEST CODE:" +:+ nl +:+ tests +:+ nl in
  call_llm prompt None.

Definition refine_code (app_code feedback : string) :=
  let prompt := PyStr.strip refine_instructions +:+ nl +:+ nl
                +:+ "CURRENT APP CODE:" +:+ nl +:+ app_code +:+ nl +:+ nl
                +:+ "FEEDBACK:" +:+ nl +:+ feedback +:+ nl in
  call_llm prompt (Some "RefinementAgent").

(* codegen_server.py *)

Definition generate_app_code (description : string) (plan : option string) :=
  let prompt_parts :=
    [PyStr.strip codegen_instructions;
     nl +:+ nl +:+ "Application Description:" +:+ nl;
     PyStr.strip description] in
  let prompt_parts :=
    match plan with
    | Some plan =>
        if PyStr.truthy plan
        then (prompt_parts
              ++ [nl +:+ nl +:+ "High-Level Plan:" +:+ nl; PyStr.strip plan])%list
        else prompt_parts
    | None => prompt_parts
    end in
  let prompt := PyStr.join "" prompt_parts in
  call_llm prompt (Some "CodeGenerator").

(* testgen_server.py *)

Definition generate_tests (app_code description : string) :=
  let prompt := PyStr.strip testgen_instructions +:+ nl +:+ nl
                +:+ "Application Description:" +:+ nl
                +:+ PyStr.strip description +:+ nl +:+ nl
                +:+ "Application Code:" +:+ nl +:+ app_code +:+ nl in
  call_llm prompt (Some "TestGenerator").

(** [arguments[key]] *)
Definition arg (key : string) (arguments : Args) : option string :=
  snd <$> find (fun kv => String.eqb (fst kv) key) arguments.

(** The text a tool function returns reaches the client as text. *)
Definition deliver (r : Result string * UsageFile) : Result PyVal * UsageFile :=
  match r with
  | (Return text, f) => (Return (VStr text), f)
  | (Raise e, f) => (Raise e, f)
  end.

Definition missing_argument (key : string) : Exn :=
  ToolException ("missing required argument: " +:+ key).

(** A tool of one or two required text arguments, as [@mcp.tool()]
    registers it under the function's name. *)
Definition tool1 (tool_name k1 : string)
    (body : string -> UsageFile -> Result string * UsageFile) : Tool :=
  mkTool tool_name (fun arguments f =>
    match arg k1 arguments with
    | Some a => deliver (body a f)
    | None => (Raise (missing_argument k1), f)
    end).

Definition tool2 (tool_name k1 k2 : string)
    (body : string -> string -> UsageFile -> Result string * UsageFile) : Tool :=
  mkTool tool_name (fun arguments f =>
    match arg k1 arguments, arg k2 arguments with
    | Some a, Some b => deliver (body a b f)
    | None, _ => (Raise (missing_argument k1), f)
    | _, None => (Raise (missing_argument k2), f)
    end).

Definition refinement_tools : list Tool :=
  [tool1 "generate_plan" "description" generate_plan;
   tool2 "review_code" "app_code" "tests" review_code;
   tool2 "refine_code" "app_code" "feedback" refine_code].

Definition codegen_tools : list Tool :=
  [mkTool "generate_app_code" (fun arguments f =>
     match arg "description" arguments with
     | Some description =>
         deliver (generate_app_code description (arg "plan" arguments) f)
     | None => (Raise (missing_argument "description"), f)
     end)].

Definition testgen_tools : list Tool :=
  [tool2 "generate_tests" "app_code" "description" generate_tests].

(** The three scripts under [BASE_DIR/mcp_servers]. *)
Definition servers (BASE_DIR : string) : Servers :=
  fun server_script =>
    if String.eqb server_script (Orchestrator.refinement_server BASE_DIR)
    then Some refinement_tools
    else if String.eqb server_script (Orchestrator.codegen_server BASE_DIR)
    then Some codegen_tools
    else if String.eqb server_script (Orchestrator.testgen_server BASE_DIR)
    then Some testgen_tools
    else None.

End WithLLM.
End McpServers.

(* ===================================================================== *)
(** ** Test doubles *)
(* ===================================================================== *)

(** Stub tool servers and a stub chat model, as a test of the pipeline sets
    them up: fixed answers, and no ledger writes by the stub tools. *)
Module Scenario.

(** A tool that returns [v] whatever it is given. *)
Definition canned (tool_name : string) (v : PyVal) : Tool :=
  mkTool tool_name (fun _ f => (Return v, f)).

(** Every script serves the five tools, each with its canned value. *)
Definition stub_servers (plan app tests review refined : PyVal) : Servers :=
  fun _ => Some [canned "generate_plan" plan; canned "generate_app_code" app;
                 canned "generate_tests" tests; canned "review_code" review;
                 canned "refine_code" refined].

(** A chat model that answers every prompt with [reply]. *)
Definition stub_llm (reply : string) : string -> Result LLM :=
  fun model_name =>
    Return (mkLLM model_name (fun _ =>
      Return (ModelTracker.mkResult (ModelTracker.ContentStr reply) ""))).

(** The three real servers over the stub chat model; the instruction texts
    play no part in what the stub answers. *)
Definition stub_llm_servers (reply BASE_DIR : string) : Servers :=
  McpServers.servers (stub_llm reply) "plan" "review" "refine" "codegen" "testgen"
                     BASE_DIR.

Definition base_dir : string := "/srv/app".
Definition stamp : string := "20250101_120000".
Definition steps : string := "Track steps walked per day".

End Scenario.

(* ===================================================================== *)
(** ** More ways to read a trace, and the ledger file when a write can fail *)
(* ===================================================================== *)

Module TraceAll.

(** Every call made, in order: script, tool name and arguments. *)
Definition called (t : list Event) : list (string * string * Args) :=
  omap (fun e => match e with
                 | Called s n a => Some (s, n, a)
                 | _ => None
                 end) t.

(** Every tool invocation that raised, in order, with what it raised. *)
Definition raised (t : list Event) : list Exn :=
  omap (fun e => match e with
                 | ToolInvoked _ _ _ (Raise e) => Some e
                 | _ => None
                 end) t.

End TraceAll.

(** [model_tracker.py] on a store whose write can fail.  [ModelTracker] above
    takes the write for granted; here the store also says whether
    [write_text] on its path goes through, which it does not when the path
    is a directory or may not be written. *)
Module LedgerFile.

Record Store := mkStore { held : UsageFile; writable : bool }.

(** What code that writes the store ends in: the store as written, or
    [OSError] raised by [write_text], the store being as it was. *)
Inductive Write :=
| Wrote (s : Store)
| OSError (s : Store).

Definition _load_usage (s : Store) : Usage := ModelTracker._load_usage (held s).

(** [_USAGE_FILE.write_text(json.dumps(data, indent=2))] *)
Definition _save_usage (data : Usage) (s : Store) : Write :=
  if writable s then Wrote (mkStore (ModelTracker._save_usage data) true)
  else OSError s.

Definition _update_usage (agent_name model_name : string) (num_tokens : Z)
    (s : Store) : Write :=
  let usage := _load_usage s in
  let usage :=
    if decide (is_Some (usage !! agent_name)) then usage
    else <[agent_name := ∅]> usage in
  let agent_stats := default ∅ (usage !! agent_name) in
  let model_stats := default ModelTracker.zero_stats (agent_stats !! model_name) in
  let model_stats :=
    mkStats (numApiCalls model_stats + 1) (totalTokens model_stats) in
  let model_stats :=
    mkStats (numApiCalls model_stats) (totalTokens model_stats + num_tokens) in
  let usage := <[agent_name := <[model_name := model_stats]> agent_stats]> usage in
  _save_usage usage s.

Definition get_model_usage (s : Store) : Usage := _load_usage s.

End LedgerFile.

(* ===================================================================== *)
(** * Properties *)
(* ===================================================================== *)

(** ** Strings *)

Example strip_both_ends : PyStr.strip "  track  steps  " = "track  steps".
Proof. reflexivity. Qed.

Example strip_blank : PyStr.strip (" " +:+ PyStr.nl +:+ " ") = "".
Proof. reflexivity. Qed.

Example split_words : PyStr.split "  track  steps walked " = ["track"; "steps"; "walked"].
Proof. reflexivity. Qed.

Example marker_found : PyStr.contains "OK_TO_USE" "Looks fine: OK_TO_USE." = true.
Proof. reflexivity. Qed.

Example marker_case_matters : PyStr.contains "OK_TO_USE" "ok_to_use" = false.
Proof. reflexivity. Qed.

Example estimate_of_blank : ModelTracker._estimate_tokens "   " = 1.
Proof. reflexivity. Qed.

Example estimate_of_words : ModelTracker._estimate_tokens "def main(): pass" = 3.
Proof. reflexivity. Qed.

Example repr_of_names :
  PyRepr.repr_list ["generate_plan"; "review_code"] = "['generate_plan', 'review_code']".
Proof. reflexivity. Qed.

Example str_of_values :
  map str [VStr "x"; VNone; VBool true; VInt (-5); VObj "[1, 2]"]
  = ["x"; "None"; "True"; "-5"; "[1, 2]"].
Proof. reflexivity. Qed.

Section StringFacts.
Import PyStr.

Lemma all_space_nil : all_space "".
Proof. constructor. Qed.

Lemma all_space_cons c s :
  all_space (String c s) <-> isspace c = true /\ all_space s.
Proof.
  unfold all_space; simpl. split.
  - intros H. inversion H; subst. auto.
  - intros [? ?]. by constructor.
Qed.

Lemma lstrip_empty s : lstrip s = "" <-> all_space s.
Proof.
  induction s as [|c s IH]; simpl.
  - split; [intros _; apply all_space_nil | done].
  - rewrite all_space_cons. destruct (isspace c); [tauto|].
    split; [discriminate | intros [? _]; discriminate].
Qed.

Lemma rstrip_empty s : rstrip s = "" <-> all_space s.
Proof.
  induction s as [|c s IH]; simpl.
  - split; [intros _; apply all_space_nil | done].
  - rewrite all_space_cons. destruct (rstrip s) eqn:E.
    + destruct (isspace c); [tauto|].
      split; [discriminate | intros [? _]; discriminate].
    + split; [discriminate|]. intros [_ H]. apply IH in H. discriminate.
Qed.

Lemma lstrip_all_space s : all_space s -> all_space (lstrip s).
Proof.
  induction s as [|c s IH]; simpl; [done|].
  rewrite all_space_cons. intros [Hc Hs]. rewrite Hc. auto.
Qed.

(** What [lstrip] leaves is empty or starts with a character that is not
    whitespace. *)
Lemma lstrip_first s :
  lstrip s = "" \/ exists c r, lstrip s = String c r /\ isspace c = false.
Proof.
  induction s as [|c s IH]; simpl; [by left|].
  destruct (isspace c) eqn:E; [done|]. right; eauto.
Qed.

(** [strip] leaves nothing exactly when every character is whitespace. *)
Lemma strip_empty s : strip s = "" <-> all_space s.
Proof.
  unfold strip. rewrite rstrip_empty. split.
  - intros H. destruct (lstrip_first s) as [E|(c & r & E & Hc)].
    + by apply lstrip_empty.
    + rewrite E in H. apply all_space_cons in H. destruct H; congruence.
  - apply lstrip_all_space.
Qed.

Lemma truthy_strip s : truthy (strip s) = false <-> all_space s.
Proof.
  rewrite <- strip_empty. destruct (strip s); simpl; split; congruence.
Qed.

Lemma truthy_strip_true s : truthy (strip s) = true <-> ~ all_space s.
Proof.
  rewrite <- truthy_strip. destruct (truthy (strip s)); split; congruence.
Qed.

Lemma startswith_spec p s : startswith p s = true <-> exists r, s = p +:+ r.
Proof.
  revert s. induction p as [|a p IH]; intros s; simpl.
  - split; eauto.
  - destruct s as [|b s].
    + split; [discriminate | intros [r Hr]; discriminate].
    + rewrite andb_true_iff, IH. split.
      * intros [Hab [r ->]]. apply Ascii.eqb_eq in Hab as ->. eauto.
      * intros [r Hr]. injection Hr as -> ->.
        split; [apply Ascii.eqb_refl | eauto].
Qed.

(** [sub in s] holds exactly when [sub] occurs in [s]. *)
Lemma contains_spec sub s : contains sub s = true <-> substring_of sub s.
Proof.
  unfold substring_of. induction s as [|c s IH].
  - simpl. rewrite orb_false_r, startswith_spec. split.
    + intros [r Hr]. exists "", r. done.
    + intros (l & r & H). destruct l; [eauto|discriminate].
  - cbn [contains]. rewrite orb_true_iff, IH, startswith_spec. split.
    + intros [[r Hr] | (l & r & Hr)].
      * exists "", r. done.
      * exists (String c l), r. simpl. by rewrite Hr.
    + intros (l & r & Hr). destruct l as [|c' l].
      * left. exists r. done.
      * right. injection Hr as -> ->. eauto.
Qed.

Lemma contains_false sub s : contains sub s = false <-> ~ substring_of sub s.
Proof.
  rewrite <- contains_spec. destruct (contains sub s); split; congruence.
Qed.

Lemma append_inj_r (p x y : string) : p +:+ x = p +:+ y -> x = y.
Proof. induction p as [|c p IH]; simpl; [done|]. intros [= H]. auto. Qed.

End StringFacts.

(** ** The usage ledger *)

Section LedgerFacts.
Import ModelTracker.
Implicit Types (u : Usage) (f : UsageFile) (ms : gmap string ModelStats).

Lemma load_save u : _load_usage (_save_usage u) = u.
Proof. reflexivity. Qed.


(** One update, as a single insertion into the loaded ledger. *)
Lemma load_update a m t f :
  _load_usage (_update_usage a m t f) =
  <[a := <[m := mkStats
                  (numApiCalls (default zero_stats (entry (_load_usage f) a m)) + 1)
                  (totalTokens (default zero_stats (entry (_load_usage f) a m)) + t)]>
           (default ∅ (_load_usage f !! a))]> (_load_usage f).
Proof.
  unfold _update_usage, entry. rewrite load_save.
  generalize (_load_usage f) as u. intros u.
  case_decide as Hin.
  - destruct Hin as [ms Hms]. rewrite Hms. done.
  - apply eq_None_not_Some in Hin.
    rewrite Hin, lookup_insert_eq, insert_insert_eq. done.
Qed.

Lemma entry_update_same a m t f :
  entry (_load_usage (_update_usage a m t f)) a m =
  Some (mkStats (numApiCalls (default zero_stats (entry (_load_usage f) a m)) + 1)
                (totalTokens (default zero_stats (entry (_load_usage f) a m)) + t)).
Proof.
  rewrite load_update. unfold entry at 1.
  rewrite lookup_insert_eq. simpl. by rewrite lookup_insert_eq.
Qed.

Lemma entry_update_other a m t f a' m' :
  (a', m') ≠ (a, m) ->
  entry (_load_usage (_update_usage a m t f)) a' m' = entry (_load_usage f) a' m'.
Proof.
  intros Hne. rewrite load_update. unfold entry.
  destruct (decide (a' = a)) as [->|Ha].
  - rewrite lookup_insert_eq. simpl.
    rewrite lookup_insert_ne by congruence.
    destruct (_load_usage f !! a); simpl; [done | apply lookup_empty].
  - by rewrite lookup_insert_ne.
Qed.

Lemma record_all_cons a m t ts f :
  record_all a m (t :: ts) f = record_all a m ts (_update_usage a m t f).
Proof. reflexivity. Qed.

(** The counter after a run of updates, from the counter before it. *)
Lemma record_all_counter a m ts f :
  default zero_stats (entry (_load_usage (record_all a m ts f)) a m) =
  mkStats
    (numApiCalls (default zero_stats (entry (_load_usage f) a m))
     + Z.of_nat (List.length ts))
    (totalTokens (default zero_stats (entry (_load_usage f) a m))
     + fold_right Z.add 0 ts).
Proof.
  revert f. induction ts as [|t ts IH]; intros f.
  - simpl. rewrite !Z.add_0_r. by destruct (default _ _).
  - rewrite record_all_cons, IH, entry_update_same.
    change (fold_right Z.add 0 (t :: ts)) with (t + fold_right Z.add 0 ts).
    change (List.length (t :: ts)) with (S (List.length ts)).
    simpl default. simpl numApiCalls. simpl totalTokens. f_equal; lia.
Qed.

Lemma record_all_keeps_entry a m ts f :
  is_Some (entry (_load_usage f) a m) ->
  is_Some (entry (_load_usage (record_all a m ts f)) a m).
Proof.
  revert f. induction ts as [|t ts IH]; intros f Hs; [done|].
  rewrite record_all_cons. apply IH. rewrite entry_update_same. eauto.
Qed.

(** Counting calls. *)
Lemma calls_in_insert_fresh m st ms :
  ms !! m = None -> calls_in (<[m := st]> ms) = numApiCalls st + calls_in ms.
Proof.
  intros H. unfold calls_in. rewrite map_fold_insert_L; [done| |done].
  intros. lia.
Qed.

Lemma calls_in_insert m st ms :
  calls_in (<[m := st]> ms) =
  numApiCalls st + calls_in ms - numApiCalls (default zero_stats (ms !! m)).
Proof.
  destruct (ms !! m) as [st0|] eqn:E.
  - rewrite <- (insert_delete_id ms m st0) at 2 by done.
    rewrite <- insert_delete_eq.
    rewrite !calls_in_insert_fresh by apply lookup_delete_eq. simpl. lia.
  - rewrite calls_in_insert_fresh by done. simpl. lia.
Qed.

Lemma total_calls_insert_fresh a ms u :
  u !! a = None -> total_calls (<[a := ms]> u) = calls_in ms + total_calls u.
Proof.
  intros H. unfold total_calls. rewrite map_fold_insert_L; [done| |done].
  intros. lia.
Qed.

Lemma total_calls_insert a ms u :
  total_calls (<[a := ms]> u) =
  calls_in ms + total_calls u - calls_in (default ∅ (u !! a)).
Proof.
  destruct (u !! a) as [ms0|] eqn:E.
  - rewrite <- (insert_delete_id u a ms0) at 2 by done.
    rewrite <- insert_delete_eq.
    rewrite !total_calls_insert_fresh by apply lookup_delete_eq. simpl. lia.
  - rewrite total_calls_insert_fresh by done. simpl. unfold calls_in.
    rewrite map_fold_empty. lia.
Qed.

Lemma total_calls_empty : total_calls ∅ = 0.
Proof. unfold total_calls. apply map_fold_empty. Qed.

(** Every update adds one call to the ledger's total. *)
Lemma total_calls_update a m t f :
  total_calls (_load_usage (_update_usage a m t f)) = total_calls (_load_usage f) + 1.
Proof.
  rewrite load_update, total_calls_insert, calls_in_insert. unfold entry.
  destruct (_load_usage f !! a) as [ms|]; simpl.
  - destruct (ms !! m); simpl; lia.
  - rewrite lookup_empty. simpl. lia.
Qed.

End LedgerFacts.

(** C6: [N] updates of one (agent, model) pair from an empty store read
    back as [numApiCalls = N] and [totalTokens = t1 + ... + tN].  The
    counter is read with an absent entry counting as zero; the entry is
    there as soon as one update was made. *)
Theorem record_all_reads_back (agent model : string) (tokens : list Z) (f : UsageFile) :
  ModelTracker._load_usage f = ∅ ->
  Forall (fun t => 0 <= t) tokens ->
  let read := ModelTracker.get_model_usage (ModelTracker.record_all agent model tokens f) in
  default ModelTracker.zero_stats (ModelTracker.entry read agent model)
  = mkStats (Z.of_nat (List.length tokens)) (fold_right Z.add 0 tokens)
  /\ (tokens <> [] -> is_Some (ModelTracker.entry read agent model)).
Proof.
  intros Hempty _ read. unfold read, ModelTracker.get_model_usage. split.
  - rewrite record_all_counter, Hempty. reflexivity.
  - destruct tokens as [|t ts]; [done|]. intros _.
    rewrite record_all_cons. apply record_all_keeps_entry.
    rewrite entry_update_same. eauto.
Qed.

Lemma record_all_reads_back_witness :
  let read := ModelTracker.get_model_usage
                (ModelTracker.record_all "CodeGenerator" "gemini-2.5-flash" [12; 0; 7] Missing) in
  default ModelTracker.zero_stats
    (ModelTracker.entry read "CodeGenerator" "gemini-2.5-flash") = mkStats 3 19
  /\ ([12; 0; 7] <> [] ->
      is_Some (ModelTracker.entry read "CodeGenerator" "gemini-2.5-flash")).
Proof.
  apply (record_all_reads_back "CodeGenerator" "gemini-2.5-flash" [12; 0; 7] Missing).
  - reflexivity.
  - repeat constructor; lia.
Defined.

(** On a store that can be written, the update is the one of [ModelTracker]. *)
Lemma update_on_writable_store (agent model : string) (tokens : Z)
    (s : LedgerFile.Store) :
  LedgerFile.writable s = true ->
  LedgerFile._update_usage agent model tokens s
  = LedgerFile.Wrote
      (LedgerFile.mkStore (ModelTracker._update_usage agent model tokens (LedgerFile.held s))
         true).
Proof.
  intros Hw. unfold LedgerFile._update_usage, LedgerFile._save_usage. rewrite Hw.
  reflexivity.
Qed.




(** C10: an update of (agent, model) on a store that loads writes back a
    ledger that agrees with the loaded one on every other pair. *)
Theorem update_leaves_other_counters (u : Usage) (agent model : string) (tokens : Z)
    (agent' model' : string) :
  (agent', model') <> (agent, model) ->
  exists u',
    ModelTracker._update_usage agent model tokens (Holds u) = Holds u'
    /\ ModelTracker.entry u' agent' model' = ModelTracker.entry u agent' model'.
Proof.
  intros Hne. eexists. split; [reflexivity|].
  apply (entry_update_other agent model tokens (Holds u) agent' model' Hne).
Qed.

Lemma update_leaves_other_counters_witness :
  exists u',
    ModelTracker._update_usage "CodeGenerator" "gemini-2.5-flash" 5
      (Holds {["TestGenerator" := {["gemini-2.5-flash" := mkStats 2 40]}]}) = Holds u'
    /\ ModelTracker.entry u' "TestGenerator" "gemini-2.5-flash"
       = ModelTracker.entry {["TestGenerator" := {["gemini-2.5-flash" := mkStats 2 40]}]}
           "TestGenerator" "gemini-2.5-flash".
Proof.
  apply (update_leaves_other_counters
           {["TestGenerator" := {["gemini-2.5-flash" := mkStats 2 40]}]}
           "CodeGenerator" "gemini-2.5-flash" 5 "TestGenerator" "gemini-2.5-flash").
  discriminate.
Defined.

(** ** Running code *)

Section MonadFacts.
Context {A B : Type}.
Implicit Types (m : M A) (k : A -> M B).

Lemma bind_Return m k f a f1 t1 :
  m f = mkOut (Return a) f1 t1 -> (m ≫= k) f = after t1 (k a f1).
Proof. intros H. unfold mbind, M_bind. by rewrite H. Qed.

Lemma bind_Raise m k f e f1 t1 :
  m f = mkOut (Raise e) f1 t1 -> (m ≫= k) f = mkOut (Raise e) f1 t1.
Proof. intros H. unfold mbind, M_bind. by rewrite H. Qed.

Lemma bind_mret (a : A) k f : (mret a ≫= k) f = after [] (k a f).
Proof. reflexivity. Qed.

End MonadFacts.

Lemma bind_bind {A B C} (m : M A) (k1 : A -> M B) (k2 : B -> M C) f :
  ((m ≫= k1) ≫= k2) f = (m ≫= (fun a => k1 a ≫= k2)) f.
Proof.
  unfold mbind, M_bind, after. destruct (m f) as [[a|e] f1 t1]; simpl; [|done].
  destruct (k1 a f1) as [[b|e] f2 t2]; simpl; [|done].
  by rewrite app_assoc.
Qed.

(** ** The remote tool client *)

Section CallFacts.
Import Orchestrator.
Variable servers : Servers.

Lemma find_name_Some tools t tool :
  find (fun tool => String.eqb (name tool) t) tools = Some tool ->
  In tool tools /\ name tool = t.
Proof.
  intros H. apply find_some in H as [Hin Heq]. by apply String.eqb_eq in Heq.
Qed.

Lemma find_name_None tools t :
  find (fun tool => String.eqb (name tool) t) tools = None <-> ~ In t (map name tools).
Proof.
  split.
  - intros H Hin. apply in_map_iff in Hin as (tool & Hn & Hin).
    apply (find_none _ _ H) in Hin. simpl in Hin.
    rewrite Hn, String.eqb_refl in Hin. done.
  - intros H. destruct (find _ tools) as [tool|] eqn:E; [|done].
    apply find_name_Some in E as [Hin Hn]. destruct H. subst t. by apply in_map.
Qed.

(** The three ways a call can go: no server, no such tool, or the tool ran. *)
Lemma call_shape s t args f :
  (servers s = None /\
   _call_mcp_tool servers s t args f =
     mkOut (Raise (TransportError s)) f [Called s t args])
  \/ (exists tools, servers s = Some tools /\ ~ In t (map name tools) /\
      _call_mcp_tool servers s t args f =
        mkOut (Raise (ValueError (tool_not_found t s (map name tools)))) f
              [Called s t args; ServerStarted s])
  \/ (exists tools tool r f',
        servers s = Some tools /\ In tool tools /\ name tool = t /\
        ainvoke tool args f = (r, f') /\
        _call_mcp_tool servers s t args f =
          mkOut r f' [Called s t args; ServerStarted s; ToolInvoked s t args r]).
Proof.
  unfold _call_mcp_tool, load_mcp_tools.
  destruct (servers s) as [tools|] eqn:Hs.
  - right.
    destruct (find (fun tool => String.eqb (name tool) t) tools) as [tool|] eqn:Hf.
    + right. apply find_name_Some in Hf as Hf'. destruct Hf' as [Hin Hn].
      destruct (ainvoke tool args f) as [r f'] eqn:Hr.
      exists tools, tool, r, f'. repeat split; try done.
      unfold mbind, M_bind, log, mret, M_ret, await_ainvoke. simpl.
      rewrite Hf. simpl. rewrite Hr. simpl. rewrite Hn. by destruct r.
    + left. exists tools. apply find_name_None in Hf as Hf'.
      repeat split; try done.
      unfold mbind, M_bind, log, mret, M_ret, raise. simpl. by rewrite Hf.
  - left. split; [done|]. reflexivity.
Qed.

End CallFacts.

(** ** The pipeline *)

(** Unfolding what is left of a run once its calls are known. *)
Ltac finish_run Ho :=
  unfold mbind, M_bind, mret, M_ret, Orchestrator.create_zip_from_strings,
    Orchestrator.get_model_usage, log in Ho;
  cbn [after result file_after trace app] in Ho.

(** One step of a run: split on how the next call goes.  The goals in
    which the call raises go to [leaf]; the goal in which it returns is
    left. *)
Ltac next_call Ho leaf :=
  match type of Ho with
  | context [(Orchestrator._call_mcp_tool ?sv ?s ?t ?a ≫= ?k) ?f] =>
      let H := fresh "Hcall" in
      let r := fresh "r" in
      destruct (call_shape sv s t a f)
        as [[? H] | [(? & ? & ? & H) | (? & ? & r & ? & ? & ? & ? & ? & H)]];
      [ rewrite (bind_Raise _ k _ _ _ _ H) in Ho; clear H; finish_run Ho; leaf
      | rewrite (bind_Raise _ k _ _ _ _ H) in Ho; clear H; finish_run Ho; leaf
      | destruct r as [?v|?e];
        [ rewrite (bind_Return _ k _ _ _ _ H) in Ho; clear H
        | rewrite (bind_Raise _ k _ _ _ _ H) in Ho; clear H; finish_run Ho; leaf ] ]
  end.

(** Every way a run can go, with [leaf] applied once the whole outcome is
    known: the four stages, the test for the marker, and the refine call
    with what comes back from it. *)
Ltac run_cases Ho leaf :=
  unfold Orchestrator.run_pipeline, Orchestrator._run_pipeline_async in Ho;
  do 4 (next_call Ho leaf);
  match type of Ho with
  | context [PyStr.contains ?m ?fb] => destruct (PyStr.contains m fb) eqn:?
  end;
  cbn [negb] in Ho;
  [ rewrite bind_mret in Ho; finish_run Ho; leaf
  | rewrite bind_bind in Ho; next_call Ho leaf;
    match type of Ho with
    | context [match ?v with VStr _ => _ | _ => _ end] => destruct v
    end;
    try match type of Ho with
        | context [PyStr.truthy ?x] => destruct (PyStr.truthy x) eqn:?
        end;
    rewrite bind_mret in Ho; finish_run Ho; leaf ].

(** Naming the outcome of a run before taking it apart. *)
Ltac name_run o Ho :=
  intros o;
  match goal with
  | o := ?run |- _ => assert (Ho : o = run) by reflexivity; clearbody o
  end.

Ltac in_trace := simpl; repeat first [left; reflexivity | right].


(** The pipeline itself does not look at the description: whatever it is
    given, its first act is the call of the planning tool. *)
Lemma run_pipeline_starts_with_plan BASE_DIR servers timestamp description f :
  exists rest,
    trace (Orchestrator.run_pipeline BASE_DIR servers timestamp description f)
    = Called (Orchestrator.refinement_server BASE_DIR) "generate_plan"
        [("description", description)] :: rest.
Proof.
  generalize (eq_refl (Orchestrator.run_pipeline BASE_DIR servers timestamp description f)).
  generalize (Orchestrator.run_pipeline BASE_DIR servers timestamp description f) at 1 3.
  intros o Ho.
  run_cases Ho ltac:(subst o; simpl; eexists; reflexivity).
Qed.

(** C2: in a run whose review call returned, the refine tool is called
    not at all when the review text has the marker ["OK_TO_USE"] in it, and
    exactly once when it has not. *)
Theorem refine_called_iff_marker_absent
    (BASE_DIR : string) (servers : Servers) (timestamp description : string)
    (f : UsageFile) (review_result : PyVal) :
  let o := Orchestrator.run_pipeline BASE_DIR servers timestamp description f in
  Trace.results_of "review_code" (trace o) = [Return review_result] ->
  let review_feedback := Orchestrator.as_text review_result in
  (PyStr.substring_of "OK_TO_USE" review_feedback ->
     List.length (Trace.calls_to "refine_code" (trace o)) = 0%nat)
  /\ (~ PyStr.substring_of "OK_TO_USE" review_feedback ->
     List.length (Trace.calls_to "refine_code" (trace o)) = 1%nat).
Proof.
  name_run o Ho. intros Hres fb. unfold fb. clear fb.
  rewrite <- contains_spec. revert Hres.
  run_cases Ho ltac:(subst o; simpl;
    first [ intros [=]; fail
          | intros [= <-]; split; [congruence | congruence] ]).
Qed.

Lemma refine_called_iff_marker_absent_witness :
  List.length (Trace.calls_to "refine_code" (trace
    (Orchestrator.run_pipeline Scenario.base_dir
       (Scenario.stub_servers (VStr "plan") (VStr "app") (VStr "tests")
          (VStr "Fine. OK_TO_USE") (VStr "better app"))
       Scenario.stamp Scenario.steps Missing))) = 0%nat
  /\ List.length (Trace.calls_to "refine_code" (trace
    (Orchestrator.run_pipeline Scenario.base_dir
       (Scenario.stub_servers (VStr "plan") (VStr "app") (VStr "tests")
          (VStr "needs work") (VStr "better app"))
       Scenario.stamp Scenario.steps Missing))) = 1%nat.
Proof.
  split.
  - apply (refine_called_iff_marker_absent Scenario.base_dir
             (Scenario.stub_servers (VStr "plan") (VStr "app") (VStr "tests")
                (VStr "Fine. OK_TO_USE") (VStr "better app"))
             Scenario.stamp Scenario.steps Missing (VStr "Fine. OK_TO_USE")).
    + reflexivity.
    + apply contains_spec. reflexivity.
  - apply (refine_called_iff_marker_absent Scenario.base_dir
             (Scenario.stub_servers (VStr "plan") (VStr "app") (VStr "tests")
                (VStr "needs work") (VStr "better app"))
             Scenario.stamp Scenario.steps Missing (VStr "needs work")).
    + reflexivity.
    + apply contains_false. reflexivity.
Defined.

(** C3: when the refine tool ran and returned text, the run goes on to
    the packager without an error; text that is empty or all whitespace is
    turned down, and the packaged [app_code] is the one generated before
    the refinement; any other text takes its place. *)
Theorem blank_refinement_rejected
    (BASE_DIR : string) (servers : Servers) (timestamp description : string)
    (f : UsageFile) (refined : string) :
  let o := Orchestrator.run_pipeline BASE_DIR servers timestamp description f in
  Trace.results_of "refine_code" (trace o) = [Return (VStr refined)] ->
  exists generated tests_code zip_path usage,
    Trace.results_of "generate_app_code" (trace o) = [Return generated]
    /\ result o = Return (zip_path, usage)
    /\ (PyStr.all_space refined ->
        Trace.packaged (trace o)
        = [(Orchestrator.as_text generated, tests_code, description)])
    /\ (~ PyStr.all_space refined ->
        Trace.packaged (trace o) = [(refined, tests_code, description)]).
Proof.
  name_run o Ho.
  run_cases Ho ltac:(subst o; simpl;
    first [ intros [=]; fail
          | intros [= <-]; eexists _, _, _, _;
            (split; [reflexivity|]); (split; [reflexivity|]);
            match goal with
            | Hs : PyStr.truthy _ = true |- _ =>
                apply truthy_strip_true in Hs; split; [done | reflexivity]
            | Hs : PyStr.truthy _ = false |- _ =>
                apply truthy_strip in Hs; split; [reflexivity | done]
            end ]).
Qed.

Lemma blank_refinement_rejected_witness :
  exists generated tests_code zip_path usage,
    let o := Orchestrator.run_pipeline Scenario.base_dir
               (Scenario.stub_servers (VStr "plan") (VStr "app") (VStr "tests")
                  (VStr "needs work") (VStr "   "))
               Scenario.stamp Scenario.steps Missing in
    Trace.results_of "generate_app_code" (trace o) = [Return generated]
    /\ result o = Return (zip_path, usage)
    /\ (PyStr.all_space "   " ->
        Trace.packaged (trace o)
        = [(Orchestrator.as_text generated, tests_code, Scenario.steps)])
    /\ (~ PyStr.all_space "   " ->
        Trace.packaged (trace o) = [("   ", tests_code, Scenario.steps)]).
Proof.
  apply (blank_refinement_rejected Scenario.base_dir
           (Scenario.stub_servers (VStr "plan") (VStr "app") (VStr "tests")
              (VStr "needs work") (VStr "   "))
           Scenario.stamp Scenario.steps Missing "   ").
  reflexivity.
Defined.

(** C4: a description that is empty or all whitespace is turned down by
    the front-end handler with its validation error; nothing has run by
    then: the trace is empty and the ledger file is as it was. *)
Theorem blank_description_rejected
    (BASE_DIR : string) (servers : Servers) (timestamp description : string)
    (f : UsageFile) :
  PyStr.all_space description ->
  GradioApp.generate_app_and_tests BASE_DIR servers timestamp description f
  = mkOut (Raise (gr_Error "Please enter a description for the desired application."))
          f [].
Proof.
  intros H. unfold GradioApp.generate_app_and_tests.
  apply truthy_strip in H. rewrite H, orb_true_r. reflexivity.
Qed.

Lemma blank_description_rejected_witness :
  GradioApp.generate_app_and_tests Scenario.base_dir
    (Scenario.stub_servers (VStr "plan") (VStr "app") (VStr "tests")
       (VStr "Fine. OK_TO_USE") (VStr "better app"))
    Scenario.stamp "   " Missing
  = mkOut (Raise (gr_Error "Please enter a description for the desired application."))
          Missing [].
Proof.
  apply (blank_description_rejected Scenario.base_dir
           (Scenario.stub_servers (VStr "plan") (VStr "app") (VStr "tests")
              (VStr "Fine. OK_TO_USE") (VStr "better app"))
           Scenario.stamp "   " Missing).
  repeat constructor.
Defined.

(** C5, as the code has it: what the plan, generate, test and review
    calls return is turned into text and handed to the next call (the
    review text to the refine call, when the marker is missing); what the
    refine call returns is not: a value that is not text is left aside and
    the generated [app_code] is packaged. *)
Theorem results_coerced_before_refine
    (BASE_DIR : string) (servers : Servers) (timestamp description : string)
    (f : UsageFile) :
  let o := Orchestrator.run_pipeline BASE_DIR servers timestamp description f in
  (forall v, Trace.results_of "generate_plan" (trace o) = [Return v] ->
     In (Called (Orchestrator.codegen_server BASE_DIR) "generate_app_code"
           [("description", description); ("plan", Orchestrator.as_text v)])
        (trace o))
  /\ (forall v, Trace.results_of "generate_app_code" (trace o) = [Return v] ->
     In (Called (Orchestrator.testgen_server BASE_DIR) "generate_tests"
           [("app_code", Orchestrator.as_text v); ("description", description)])
        (trace o))
  /\ (forall v, Trace.results_of "generate_tests" (trace o) = [Return v] ->
     exists app_code,
       In (Called (Orchestrator.refinement_server BASE_DIR) "review_code"
             [("app_code", app_code); ("tests", Orchestrator.as_text v)])
          (trace o))
  /\ (forall v, Trace.results_of "review_code" (trace o) = [Return v] ->
     ~ PyStr.substring_of "OK_TO_USE" (Orchestrator.as_text v) ->
     exists app_code,
       In (Called (Orchestrator.refinement_server BASE_DIR) "refine_code"
             [("app_code", app_code); ("feedback", Orchestrator.as_text v)])
          (trace o))
  /\ (forall v generated,
     Trace.results_of "refine_code" (trace o) = [Return v] ->
     Trace.results_of "generate_app_code" (trace o) = [Return generated] ->
     isinstance_str v = false ->
     exists tests_code,
       Trace.packaged (trace o)
       = [(Orchestrator.as_text generated, tests_code, description)]).
Proof.
  name_run o Ho.
  run_cases Ho ltac:(subst o; simpl;
    repeat split;
    try (intros ? [=]; subst; (idtac + eexists); in_trace; fail);
    try (intros ? [=]; subst; rewrite <- contains_false; intros ?;
         first [congruence | eexists; in_trace]; fail);
    try (intros ? ? [=]; fail);
    try (intros ? ? [= <-] [= <-] [=]; eexists; reflexivity);
    try (intros ? ? [= <-] [= <-] _; eexists; reflexivity)).
Qed.

Lemma results_coerced_before_refine_witness :
  let o := Orchestrator.run_pipeline Scenario.base_dir
             (Scenario.stub_servers (VInt 7) (VStr "app") (VStr "tests")
                (VStr "needs work") (VObj "refined"))
             Scenario.stamp Scenario.steps Missing in
  In (Called (Orchestrator.codegen_server Scenario.base_dir) "generate_app_code"
        [("description", Scenario.steps); ("plan", "7")]) (trace o)
  /\ exists tests_code,
       Trace.packaged (trace o) = [("app", tests_code, Scenario.steps)].
Proof.
  intros o.
  destruct (results_coerced_before_refine Scenario.base_dir
              (Scenario.stub_servers (VInt 7) (VStr "app") (VStr "tests")
                 (VStr "needs work") (VObj "refined"))
              Scenario.stamp Scenario.steps Missing)
    as (Hplan & _ & _ & _ & Hrefine).
  split.
  - apply (Hplan (VInt 7)). reflexivity.
  - apply (Hrefine (VObj "refined") (VStr "app")); reflexivity.
Defined.

(** C5 as stated fails at the refine stage: a refine result that is not
    text is neither turned into text nor passed on; the packaged
    [app_code] is the generated one. *)
Lemma nontext_refinement_dropped :
  let o := Orchestrator.run_pipeline Scenario.base_dir
             (Scenario.stub_servers (VStr "plan") (VStr "app") (VStr "tests")
                (VStr "needs work") (VObj "refined"))
             Scenario.stamp Scenario.steps Missing in
  Trace.results_of "refine_code" (trace o) = [Return (VObj "refined")]
  /\ Trace.packaged (trace o) = [("app", "tests", Scenario.steps)]
  /\ str (VObj "refined") <> "app".
Proof. vm_compute. repeat split; discriminate. Qed.



(** C9: whatever the refine branch does, the tests and the description
    that reach the packager are the ones from before it: the description
    the run was given, and the text of what [generate_tests] returned when
    it was called on the generated (not the refined) [app_code]. *)
Theorem refine_leaves_tests_and_description
    (BASE_DIR : string) (servers : Servers) (timestamp description : string)
    (f : UsageFile) (app_code tests_code description' : string) :
  let o := Orchestrator.run_pipeline BASE_DIR servers timestamp description f in
  In (app_code, tests_code, description') (Trace.packaged (trace o)) ->
  description' = description
  /\ exists generated tests_result,
       Trace.results_of "generate_app_code" (trace o) = [Return generated]
       /\ In (ToolInvoked (Orchestrator.testgen_server BASE_DIR) "generate_tests"
                [("app_code", Orchestrator.as_text generated);
                 ("description", description)]
                (Return tests_result)) (trace o)
       /\ tests_code = Orchestrator.as_text tests_result.
Proof.
  name_run o Ho.
  run_cases Ho ltac:(subst o; simpl; intros Hpk;
    first [ contradiction
          | destruct Hpk as [[= <- <- <-]|[]];
            (split; [reflexivity|]);
            eexists _, _; (split; [reflexivity|]);
            (split; [in_trace|reflexivity]) ]).
Qed.

Lemma refine_leaves_tests_and_description_witness :
  let o := Orchestrator.run_pipeline Scenario.base_dir
             (Scenario.stub_servers (VStr "plan") (VStr "app") (VStr "tests")
                (VStr "needs work") (VStr "better app"))
             Scenario.stamp Scenario.steps Missing in
  Trace.packaged (trace o) = [("better app", "tests", Scenario.steps)]
  /\ Scenario.steps = Scenario.steps
  /\ exists generated tests_result,
       Trace.results_of "generate_app_code" (trace o) = [Return generated]
       /\ In (ToolInvoked (Orchestrator.testgen_server Scenario.base_dir) "generate_tests"
                [("app_code", Orchestrator.as_text generated);
                 ("description", Scenario.steps)]
                (Return tests_result)) (trace o)
       /\ "tests" = Orchestrator.as_text tests_result.
Proof.
  intros o. split; [reflexivity|].
  apply (refine_leaves_tests_and_description Scenario.base_dir
           (Scenario.stub_servers (VStr "plan") (VStr "app") (VStr "tests")
              (VStr "needs work") (VStr "better app"))
           Scenario.stamp Scenario.steps Missing "better app" "tests" Scenario.steps).
  left. reflexivity.
Defined.

(** ** The three servers and the ledger *)

Section RealServers.
Import ModelTracker McpServers.
Variable ChatGoogleGenerativeAI : string -> Result LLM.
Variables plan_i review_i refine_i codegen_i testgen_i : string.
Variable BASE_DIR : string.
Variable llm : LLM.
Hypothesis Hllm : ChatGoogleGenerativeAI "gemini-2.5-flash" = Return llm.

Local Abbreviation the_servers :=
  (McpServers.servers ChatGoogleGenerativeAI
     plan_i review_i refine_i codegen_i testgen_i BASE_DIR).

Lemma servers_refinement :
  the_servers (Orchestrator.refinement_server BASE_DIR) =
  Some (refinement_tools ChatGoogleGenerativeAI plan_i review_i refine_i).
Proof. unfold McpServers.servers. by rewrite String.eqb_refl. Qed.

Lemma servers_codegen :
  the_servers (Orchestrator.codegen_server BASE_DIR) =
  Some (codegen_tools ChatGoogleGenerativeAI codegen_i).
Proof.
  unfold McpServers.servers.
  destruct (String.eqb_spec (Orchestrator.codegen_server BASE_DIR)
              (Orchestrator.refinement_server BASE_DIR)) as [E|_].
  - apply append_inj_r in E. discriminate.
  - by rewrite String.eqb_refl.
Qed.

Lemma servers_testgen :
  the_servers (Orchestrator.testgen_server BASE_DIR) =
  Some (testgen_tools ChatGoogleGenerativeAI testgen_i).
Proof.
  unfold McpServers.servers.
  destruct (String.eqb_spec (Orchestrator.testgen_server BASE_DIR)
              (Orchestrator.refinement_server BASE_DIR)) as [E|_].
  { apply append_inj_r in E. discriminate. }
  destruct (String.eqb_spec (Orchestrator.testgen_server BASE_DIR)
              (Orchestrator.codegen_server BASE_DIR)) as [E|_].
  { apply append_inj_r in E. discriminate. }
  by rewrite String.eqb_refl.
Qed.

(** A tool body that returns has recorded one call, under the agent name
    it passed or under the default when it passed none. *)
Lemma call_llm_records prompt agent_name f text f' :
  call_llm ChatGoogleGenerativeAI prompt agent_name f = (Return text, f') ->
  exists tokens,
    f' = _update_usage (default "UnknownAgent" agent_name) (model llm) tokens f.
Proof.
  unfold call_llm, _get_llm. rewrite Hllm. unfold Tracking.invoke.
  destruct (super_invoke llm prompt); intros [= _ <-]. eauto.
Qed.

Lemma deliver_Return r v f' :
  deliver r = (Return v, f') -> exists text, r = (Return text, f').
Proof. destruct r as [[text|e] f0]; simpl; intros [=]; subst; eauto. Qed.

Ltac tool_body H :=
  simpl in H;
  repeat match type of H with
         | context [arg ?k ?a] => destruct (arg k a)
         end;
  try discriminate H;
  apply deliver_Return in H as [? H];
  apply call_llm_records in H as [tokens ->]; eauto.

(** [generate_plan] and [review_code] record under the default name. *)
Lemma refinement_tool_records tool t args v f f' :
  In tool (refinement_tools ChatGoogleGenerativeAI plan_i review_i refine_i) ->
  name tool = t -> t <> "refine_code" ->
  ainvoke tool args f = (Return v, f') ->
  exists tokens, f' = _update_usage "UnknownAgent" (model llm) tokens f.
Proof.
  intros Hin Hn Ht H. simpl in Hin. destruct Hin as [<-|[<-|[<-|[]]]].
  - tool_body H.
  - tool_body H.
  - simpl in Hn. congruence.
Qed.

Lemma codegen_tool_records tool args v f f' :
  In tool (codegen_tools ChatGoogleGenerativeAI codegen_i) ->
  ainvoke tool args f = (Return v, f') ->
  exists tokens, f' = _update_usage "CodeGenerator" (model llm) tokens f.
Proof.
  intros Hin H. simpl in Hin. destruct Hin as [<-|[]]. tool_body H.
Qed.

Lemma testgen_tool_records tool args v f f' :
  In tool (testgen_tools ChatGoogleGenerativeAI testgen_i) ->
  ainvoke tool args f = (Return v, f') ->
  exists tokens, f' = _update_usage "TestGenerator" (model llm) tokens f.
Proof.
  intros Hin H. simpl in Hin. destruct Hin as [<-|[]]. tool_body H.
Qed.

(** The ledger file after a run that packaged without refining: four
    updates of the file the run started from. *)
Lemma accepted_run_file timestamp description f zip_path usage :
  let o := Orchestrator.run_pipeline BASE_DIR the_servers timestamp description f in
  result o = Return (zip_path, usage) ->
  Trace.calls_to "refine_code" (trace o) = [] ->
  exists k1 k2 k3 k4,
    usage = _load_usage
      (_update_usage "UnknownAgent" (model llm) k4
         (_update_usage "TestGenerator" (model llm) k3
            (_update_usage "CodeGenerator" (model llm) k2
               (_update_usage "UnknownAgent" (model llm) k1 f)))).
Proof.
  name_run o Ho.
  run_cases Ho ltac:(subst o; simpl;
                     try (intros [=]; fail); try (intros _ [=]; fail)).
  intros [= _ <-] _.
  repeat match goal with
         | H : McpServers.servers _ _ _ _ _ _ _ (Orchestrator.refinement_server _) = Some _ |- _ =>
             rewrite servers_refinement in H; injection H as <-
         | H : McpServers.servers _ _ _ _ _ _ _ (Orchestrator.codegen_server _) = Some _ |- _ =>
             rewrite servers_codegen in H; injection H as <-
         | H : McpServers.servers _ _ _ _ _ _ _ (Orchestrator.testgen_server _) = Some _ |- _ =>
             rewrite servers_testgen in H; injection H as <-
         end.
  repeat match goal with
         | Hin : In ?tool (refinement_tools _ _ _ _), Hn : name ?tool = _,
           H : ainvoke ?tool _ _ = (Return _, _) |- _ =>
             apply (refinement_tool_records _ _ _ _ _ _ Hin Hn) in H as [? ->];
             [clear Hin Hn | discriminate]
         | Hin : In ?tool (codegen_tools _ _),
           H : ainvoke ?tool _ _ = (Return _, _) |- _ =>
             apply (codegen_tool_records _ _ _ _ _ Hin) in H as [? ->]; clear Hin
         | Hin : In ?tool (testgen_tools _ _),
           H : ainvoke ?tool _ _ = (Return _, _) |- _ =>
             apply (testgen_tool_records _ _ _ _ _ Hin) in H as [? ->]; clear Hin
         end.
  eexists _, _, _, _. reflexivity.
Qed.

End RealServers.

(** C1, as the code has it: after a complete run over the three servers
    in which the review was accepted and refine skipped, a ledger that was
    empty before records four calls in all; the generate and the test stage
    have an entry of their own with [numApiCalls = 1], and the plan and the
    review stage are counted in one entry, which shows [numApiCalls = 2]. *)
Theorem accepted_run_usage_counts
    (ChatGoogleGenerativeAI : string -> Result LLM)
    (plan_i review_i refine_i codegen_i testgen_i : string)
    (BASE_DIR timestamp description : string) (llm : LLM) (f : UsageFile)
    (zip_path : string) (usage : Usage) :
  ChatGoogleGenerativeAI "gemini-2.5-flash" = Return llm ->
  ModelTracker._load_usage f = ∅ ->
  let o := Orchestrator.run_pipeline BASE_DIR
             (McpServers.servers ChatGoogleGenerativeAI
                plan_i review_i refine_i codegen_i testgen_i BASE_DIR)
             timestamp description f in
  result o = Return (zip_path, usage) ->
  Trace.calls_to "refine_code" (trace o) = [] ->
  ModelTracker.total_calls usage = 4
  /\ numApiCalls <$> ModelTracker.entry usage "CodeGenerator" (model llm) = Some 1
  /\ numApiCalls <$> ModelTracker.entry usage "TestGenerator" (model llm) = Some 1
  /\ numApiCalls <$> ModelTracker.entry usage "UnknownAgent" (model llm) = Some 2.
Proof.
  intros Hllm Hempty o Hres Hrefine.
  destruct (accepted_run_file ChatGoogleGenerativeAI plan_i review_i refine_i
              codegen_i testgen_i BASE_DIR llm Hllm timestamp description f
              zip_path usage Hres Hrefine) as (k1 & k2 & k3 & k4 & ->).
  repeat split.
  - rewrite !total_calls_update, Hempty, total_calls_empty. done.
  - rewrite entry_update_other by congruence.
    rewrite entry_update_other by congruence.
    rewrite entry_update_same.
    rewrite entry_update_other by congruence.
    rewrite Hempty. reflexivity.
  - rewrite entry_update_other by congruence.
    rewrite entry_update_same.
    rewrite !entry_update_other by congruence.
    rewrite Hempty. reflexivity.
  - rewrite entry_update_same.
    rewrite !entry_update_other by congruence.
    rewrite entry_update_same.
    rewrite Hempty. reflexivity.
Qed.

Lemma accepted_run_usage_counts_witness :
  let usage := ModelTracker.get_model_usage (file_after
                 (Orchestrator.run_pipeline Scenario.base_dir
                    (Scenario.stub_llm_servers "Fine. OK_TO_USE" Scenario.base_dir)
                    Scenario.stamp Scenario.steps Missing)) in
  ModelTracker.total_calls usage = 4
  /\ numApiCalls <$> ModelTracker.entry usage "CodeGenerator" "gemini-2.5-flash" = Some 1
  /\ numApiCalls <$> ModelTracker.entry usage "TestGenerator" "gemini-2.5-flash" = Some 1
  /\ numApiCalls <$> ModelTracker.entry usage "UnknownAgent" "gemini-2.5-flash" = Some 2.
Proof.
  intros usage.
  apply (accepted_run_usage_counts (Scenario.stub_llm "Fine. OK_TO_USE")
           "plan" "review" "refine" "codegen" "testgen"
           Scenario.base_dir Scenario.stamp Scenario.steps
           (mkLLM "gemini-2.5-flash" (fun _ =>
              Return (ModelTracker.mkResult (ModelTracker.ContentStr "Fine. OK_TO_USE") "")))
           Missing
           "/srv/app/generated_output/generated_app_20250101_120000.zip" usage).
  - reflexivity.
  - reflexivity.
  - vm_compute. reflexivity.
  - vm_compute. reflexivity.
Defined.

(** C1 as stated fails: the planning tool alone, on an empty store, writes
    its one call into the entry ["UnknownAgent"]; after the whole accepted
    run that entry, the plan stage's, shows two calls, not one. *)
Lemma plan_and_review_share_one_entry :
  (let after_plan :=
     ModelTracker._load_usage
       (snd (McpServers.generate_plan (Scenario.stub_llm "Fine. OK_TO_USE") "plan"
               Scenario.steps Missing)) in
   ModelTracker.entry after_plan "UnknownAgent" "gemini-2.5-flash" = Some (mkStats 1 2)
   /\ ModelTracker.total_calls after_plan = 1)
  /\ (let o := Orchestrator.run_pipeline Scenario.base_dir
                 (Scenario.stub_llm_servers "Fine. OK_TO_USE" Scenario.base_dir)
                 Scenario.stamp Scenario.steps Missing in
      match result o with
      | Return (_, usage) =>
          Trace.calls_to "refine_code" (trace o) = []
          /\ numApiCalls <$> ModelTracker.entry usage "UnknownAgent" "gemini-2.5-flash"
             = Some 2
          /\ numApiCalls <$> ModelTracker.entry usage "UnknownAgent" "gemini-2.5-flash"
             <> Some 1
      | Raise _ => False
      end).
Proof. vm_compute. repeat split; discriminate. Qed.

(* ===================================================================== *)
(** * More properties of the code *)
(* ===================================================================== *)

(** X1: an update that records a token count that is not negative never
    lowers a counter: every entry the ledger had is still there afterwards,
    with no fewer calls and no fewer tokens. *)
Theorem update_never_decreases (agent model : string) (tokens : Z) (f : UsageFile)
    (agent' model' : string) (before : ModelStats) :
  0 <= tokens ->
  ModelTracker.entry (ModelTracker._load_usage f) agent' model' = Some before ->
  exists now,
    ModelTracker.entry
      (ModelTracker._load_usage (ModelTracker._update_usage agent model tokens f))
      agent' model' = Some now
    /\ numApiCalls before <= numApiCalls now
    /\ totalTokens before <= totalTokens now.
Proof.
  intros Ht Hb. destruct (decide ((agent', model') = (agent, model))) as [[= -> ->]|Hne].
  - rewrite entry_update_same, Hb. eexists. split; [reflexivity|]. simpl. lia.
  - rewrite entry_update_other by done. exists before. split; [done|]. lia.
Qed.

Lemma update_never_decreases_witness :
  exists now,
    ModelTracker.entry
      (ModelTracker._load_usage
         (ModelTracker._update_usage "CodeGenerator" "gemini-2.5-flash" 9
            (Holds {["CodeGenerator" := {["gemini-2.5-flash" := mkStats 2 40]}]})))
      "CodeGenerator" "gemini-2.5-flash" = Some now
    /\ numApiCalls (mkStats 2 40) <= numApiCalls now
    /\ totalTokens (mkStats 2 40) <= totalTokens now.
Proof.
  apply (update_never_decreases "CodeGenerator" "gemini-2.5-flash" 9
           (Holds {["CodeGenerator" := {["gemini-2.5-flash" := mkStats 2 40]}]})
           "CodeGenerator" "gemini-2.5-flash" (mkStats 2 40)).
  - lia.
  - reflexivity.
Defined.

Lemma entry_default (u : Usage) a m :
  ModelTracker.entry u a m = default ∅ (u !! a) !! m.
Proof. unfold ModelTracker.entry. destruct (u !! a); [done|]. simpl. by rewrite lookup_empty. Qed.

(** X2: two updates read back the same in either order, for the same or for
    different (agent, model) pairs.  The ledgers read back are equal as
    dictionaries, which is what equality of maps says: the same agents, the
    same models under each, the same counters; the order in which the keys
    stand in the file's text is not part of it. *)
Theorem reads_agree_in_either_order (a1 m1 : string) (t1 : Z) (a2 m2 : string) (t2 : Z)
    (f : UsageFile) :
  ModelTracker.get_model_usage
    (ModelTracker._update_usage a1 m1 t1 (ModelTracker._update_usage a2 m2 t2 f))
  = ModelTracker.get_model_usage
      (ModelTracker._update_usage a2 m2 t2 (ModelTracker._update_usage a1 m1 t1 f)).
Proof.
  unfold ModelTracker.get_model_usage. rewrite !load_update, !entry_default.
  generalize (ModelTracker._load_usage f) as u. intros u.
  destruct (decide (a1 = a2)) as [->|Ha].
  - rewrite !lookup_insert_eq, !insert_insert_eq. simpl. f_equal.
    generalize (default ∅ (u !! a2)) as ms. intros ms.
    destruct (decide (m1 = m2)) as [->|Hm].
    + rewrite !lookup_insert_eq, !insert_insert_eq. simpl. f_equal. f_equal; lia.
    + rewrite !(lookup_insert_ne _ m2 m1), !(lookup_insert_ne _ m1 m2) by done.
      apply insert_insert_ne. done.
  - rewrite !(lookup_insert_ne _ a2 a1), !(lookup_insert_ne _ a1 a2) by done.
    apply insert_insert_ne. done.
Qed.

(** X3: counts add up on a ledger that already has the entry: [N] updates
    take a counter [{c, t}] to [{c + N, t + t1 + ... + tN}], and leave every
    other counter as it was. *)
Theorem record_all_accumulates (agent model : string) (tokens : list Z)
    (f : UsageFile) (before : ModelStats) (agent' model' : string) :
  ModelTracker.entry (ModelTracker._load_usage f) agent model = Some before ->
  (agent', model') <> (agent, model) ->
  let read := ModelTracker.get_model_usage
                (ModelTracker.record_all agent model tokens f) in
  ModelTracker.entry read agent model
  = Some (mkStats (numApiCalls before + Z.of_nat (List.length tokens))
                  (totalTokens before + fold_right Z.add 0 tokens))
  /\ ModelTracker.entry read agent' model'
     = ModelTracker.entry (ModelTracker._load_usage f) agent' model'.
Proof.
  intros Hb Hne read. unfold read, ModelTracker.get_model_usage. split.
  - assert (Hs : is_Some (ModelTracker.entry
                   (ModelTracker._load_usage
                      (ModelTracker.record_all agent model tokens f)) agent model)).
    { apply record_all_keeps_entry. rewrite Hb. eauto. }
    destruct Hs as [st Hst].
    assert (Hc := record_all_counter agent model tokens f).
    rewrite Hst, Hb in Hc. simpl in Hc. by rewrite Hst, Hc.
  - clear Hb read. revert f. induction tokens as [|t ts IH]; intros f; [done|].
    rewrite record_all_cons, IH. by apply entry_update_other.
Qed.

Lemma record_all_accumulates_witness :
  let f := Holds {["CodeGenerator" := {["gemini-2.5-flash" := mkStats 2 40]};
                   "TestGenerator" := {["gemini-2.5-flash" := mkStats 1 8]} ]} in
  let read := ModelTracker.get_model_usage
                (ModelTracker.record_all "CodeGenerator" "gemini-2.5-flash" [3; 4] f) in
  ModelTracker.entry read "CodeGenerator" "gemini-2.5-flash"
  = Some (mkStats (2 + 2) (40 + (3 + (4 + 0))))
  /\ ModelTracker.entry read "TestGenerator" "gemini-2.5-flash"
     = ModelTracker.entry (ModelTracker._load_usage f) "TestGenerator" "gemini-2.5-flash".
Proof.
  intros f.
  apply (record_all_accumulates "CodeGenerator" "gemini-2.5-flash" [3; 4] f
           (mkStats 2 40) "TestGenerator" "gemini-2.5-flash").
  - vm_compute. reflexivity.
  - discriminate.
Defined.


(** ** The token estimate *)

Lemma split_from_length word s :
  (List.length (PyStr.split_from word s)
   <= (if PyStr.truthy word then 1 else 0) + String.length s)%nat.
Proof.
  revert word. induction s as [|c s IH]; intros word; simpl.
  - destruct (PyStr.truthy word); simpl; lia.
  - destruct (PyStr.isspace c).
    + destruct (PyStr.truthy word); simpl; specialize (IH ""); simpl in IH; lia.
    + specialize (IH (word +:+ String c "")).
      assert (PyStr.truthy (word +:+ String c "") = true) as E by (by destruct word).
      rewrite E in IH. destruct (PyStr.truthy word); lia.
Qed.

Lemma split_from_blank s : PyStr.all_space s -> PyStr.split_from "" s = [].
Proof.
  induction s as [|c s IH]; [done|]. rewrite all_space_cons. intros [Hc Hs].
  simpl. rewrite Hc. auto.
Qed.

(** X5: the token estimate is at least 1, also for empty or blank text (where
    it is exactly 1), and never more than the number of characters. *)
Theorem estimate_tokens_bounds (text : string) :
  1 <= ModelTracker._estimate_tokens text
  /\ ModelTracker._estimate_tokens text <= Z.max 1 (Z.of_nat (String.length text))
  /\ (PyStr.all_space text -> ModelTracker._estimate_tokens text = 1).
Proof.
  unfold ModelTracker._estimate_tokens, PyStr.split.
  assert (H := split_from_length "" text). simpl in H.
  split; [lia|]. split; [lia|].
  intros Hb. by rewrite split_from_blank.
Qed.

Lemma estimate_tokens_bounds_witness :
  1 <= ModelTracker._estimate_tokens "   "
  /\ ModelTracker._estimate_tokens "   " <= Z.max 1 (Z.of_nat (String.length "   "))
  /\ (PyStr.all_space "   " -> ModelTracker._estimate_tokens "   " = 1).
Proof.
  destruct (estimate_tokens_bounds "   ") as (Hlow & Hhigh & Hblank).
  split; [exact Hlow|]. split; [exact Hhigh|]. intros _.
  apply Hblank. repeat constructor.
Defined.

(** X7: in a run that returns, the calls made are the four stages in order,
    then the refine call exactly when the review text lacks the marker; each
    call is given the description and the text of what the stages before it
    returned. *)
Theorem returned_run_data_flow
    (BASE_DIR : string) (servers : Servers) (timestamp description : string)
    (f : UsageFile) (zip_path : string) (usage : Usage) :
  let o := Orchestrator.run_pipeline BASE_DIR servers timestamp description f in
  result o = Return (zip_path, usage) ->
  exists plan app_code tests_code feedback,
    Trace.results_of "generate_plan" (trace o) = [Return plan]
    /\ Trace.results_of "generate_app_code" (trace o) = [Return app_code]
    /\ Trace.results_of "generate_tests" (trace o) = [Return tests_code]
    /\ Trace.results_of "review_code" (trace o) = [Return feedback]
    /\ TraceAll.called (trace o)
       = ([ (Orchestrator.refinement_server BASE_DIR, "generate_plan",
            [("description", description)]);
           (Orchestrator.codegen_server BASE_DIR, "generate_app_code",
            [("description", description); ("plan", Orchestrator.as_text plan)]);
           (Orchestrator.testgen_server BASE_DIR, "generate_tests",
            [("app_code", Orchestrator.as_text app_code); ("description", description)]);
           (Orchestrator.refinement_server BASE_DIR, "review_code",
            [("app_code", Orchestrator.as_text app_code);
             ("tests", Orchestrator.as_text tests_code)]) ]
         ++ (if PyStr.contains "OK_TO_USE" (Orchestrator.as_text feedback) then []
             else [ (Orchestrator.refinement_server BASE_DIR, "refine_code",
                     [("app_code", Orchestrator.as_text app_code);
                      ("feedback", Orchestrator.as_text feedback)]) ]))%list.
Proof.
  name_run o Ho.
  run_cases Ho ltac:(subst o; simpl;
    first [ intros [=]; fail
          | intros _; eexists _, _, _, _;
            do 4 (split; [reflexivity|]);
            match goal with
            | Hc : PyStr.contains _ _ = _ |- _ => rewrite Hc; reflexivity
            end ]).
Qed.

(** X8: whatever happens, the calls of a run are the first [n] of plan,
    generate, test, review, refine, each on its own script, with [n] at
    least 1: no stage is skipped, repeated or reordered. *)
Theorem calls_in_fixed_order
    (BASE_DIR : string) (servers : Servers) (timestamp description : string)
    (f : UsageFile) :
  let o := Orchestrator.run_pipeline BASE_DIR servers timestamp description f in
  exists n,
    map fst (TraceAll.called (trace o))
    = take n [ (Orchestrator.refinement_server BASE_DIR, "generate_plan");
               (Orchestrator.codegen_server BASE_DIR, "generate_app_code");
               (Orchestrator.testgen_server BASE_DIR, "generate_tests");
               (Orchestrator.refinement_server BASE_DIR, "review_code");
               (Orchestrator.refinement_server BASE_DIR, "refine_code") ]
    /\ (1 <= n <= 5)%nat.
Proof.
  name_run o Ho.
  run_cases Ho ltac:(subst o; simpl;
    first [ exists 1%nat; split; [reflexivity|lia]
          | exists 2%nat; split; [reflexivity|lia]
          | exists 3%nat; split; [reflexivity|lia]
          | exists 4%nat; split; [reflexivity|lia]
          | exists 5%nat; split; [reflexivity|lia] ]).
Qed.


(** X10: what a tool raises is what the run raises, unchanged; that
    invocation is the last event of the run and the only one that raised. *)
Theorem tool_exception_propagates
    (BASE_DIR : string) (servers : Servers) (timestamp description : string)
    (f : UsageFile) (s n : string) (args : Args) (e : Exn) :
  let o := Orchestrator.run_pipeline BASE_DIR servers timestamp description f in
  In (ToolInvoked s n args (Raise e)) (trace o) ->
  result o = Raise e
  /\ last (trace o) = Some (ToolInvoked s n args (Raise e))
  /\ TraceAll.raised (trace o) = [e].
Proof.
  name_run o Ho.
  run_cases Ho ltac:(subst o; simpl; intros Hin;
    repeat match type of Hin with
           | _ \/ _ => destruct Hin as [Hin|Hin]
           end;
    first [ discriminate Hin | contradiction
          | injection Hin as <- <- <- <-; repeat split; reflexivity ]).
Qed.

(** X11: a call to a script whose server cannot be started ends the run
    with [TransportError] at that call, and nothing is packaged. *)
Theorem transport_failure_aborts
    (BASE_DIR : string) (servers : Servers) (timestamp description : string)
    (f : UsageFile) (s n : string) (args : Args) :
  let o := Orchestrator.run_pipeline BASE_DIR servers timestamp description f in
  servers s = None ->
  In (Called s n args) (trace o) ->
  result o = Raise (TransportError s)
  /\ last (trace o) = Some (Called s n args)
  /\ Trace.packaged (trace o) = [].
Proof.
  name_run o Ho. intros Hs.
  run_cases Ho ltac:(subst o; simpl; intros Hin;
    repeat match type of Hin with
           | _ \/ _ => destruct Hin as [Hin|Hin]
           end;
    first [ discriminate Hin | contradiction
          | injection Hin as <- <- <-;
            first [ congruence | repeat split; reflexivity ] ]).
Qed.

(** X12: the orchestrator never writes the ledger itself: when no tool of
    any server changes the file, the file after the run is the file before. *)
Theorem pipeline_never_writes_ledger
    (BASE_DIR : string) (servers : Servers) (timestamp description : string)
    (f : UsageFile) :
  (forall s tools tool args g,
     servers s = Some tools -> In tool tools -> snd (ainvoke tool args g) = g) ->
  file_after (Orchestrator.run_pipeline BASE_DIR servers timestamp description f) = f.
Proof.
  intros Hframe.
  generalize (eq_refl (Orchestrator.run_pipeline BASE_DIR servers timestamp description f)).
  generalize (Orchestrator.run_pipeline BASE_DIR servers timestamp description f) at 1 3.
  intros o Ho.
  run_cases Ho ltac:(subst o; simpl;
    repeat match goal with
           | Hs : servers ?s = Some ?tools, Hin : In ?tool ?tools,
             H : ainvoke ?tool ?a ?g = (_, ?g') |- _ =>
               let E := fresh "E" in
               assert (E := Hframe s tools tool a g Hs Hin);
               rewrite H in E; simpl in E; subst g'; clear H
           end;
    reflexivity).
Qed.

(** ** More on strings *)

Lemma rstrip_rstrip s : PyStr.rstrip (PyStr.rstrip s) = PyStr.rstrip s.
Proof.
  induction s as [|c s IH]; [done|]. simpl.
  destruct (PyStr.rstrip s) as [|a r] eqn:E.
  - destruct (PyStr.isspace c) eqn:Hc; [done|]. simpl. by rewrite Hc.
  - change (PyStr.rstrip (String c (String a r)))
      with (match PyStr.rstrip (String a r) with
            | EmptyString => if PyStr.isspace c then EmptyString else String c EmptyString
            | r' => String c r'
            end).
    by rewrite IH.
Qed.

Lemma rstrip_keeps_head c r :
  PyStr.isspace c = false -> exists r', PyStr.rstrip (String c r) = String c r'.
Proof.
  intros Hc. simpl. destruct (PyStr.rstrip r); [rewrite Hc|]; eauto.
Qed.

Lemma lstrip_rstrip_lstrip s :
  PyStr.lstrip (PyStr.rstrip (PyStr.lstrip s)) = PyStr.rstrip (PyStr.lstrip s).
Proof.
  destruct (lstrip_first s) as [E|(c & r & E & Hc)]; rewrite E; [done|].
  destruct (rstrip_keeps_head c r Hc) as [r' ->]. simpl. by rewrite Hc.
Qed.

(** Stripping twice is stripping once. *)
Lemma strip_strip s : PyStr.strip (PyStr.strip s) = PyStr.strip s.
Proof. unfold PyStr.strip. by rewrite lstrip_rstrip_lstrip, rstrip_rstrip. Qed.

(** ** The remote tool client, again *)

(** X13: when a catalog has several tools of the requested name, the first
    of them in catalog order is the one invoked. *)
Theorem first_matching_tool_wins (servers : Servers) (s : string) (args : Args)
    (f : UsageFile) (earlier later : list Tool) (tool : Tool) :
  servers s = Some (earlier ++ tool :: later)%list ->
  Forall (fun t => name t <> name tool) earlier ->
  Orchestrator._call_mcp_tool servers s (name tool) args f
  = mkOut (fst (ainvoke tool args f)) (snd (ainvoke tool args f))
          [Called s (name tool) args; ServerStarted s;
           ToolInvoked s (name tool) args (fst (ainvoke tool args f))].
Proof.
  intros Hs Hearlier.
  assert (Hfind : find (fun t => String.eqb (name t) (name tool)) (earlier ++ tool :: later)%list
                  = Some tool).
  { clear Hs. induction Hearlier as [|t ts Ht _ IH].
    - simpl. by rewrite String.eqb_refl.
    - apply String.eqb_neq in Ht. change (find (fun t0 => String.eqb (name t0) (name tool))
                                             ((t :: ts) ++ tool :: later)%list)
        with (if String.eqb (name t) (name tool) then Some t
              else find (fun t0 => String.eqb (name t0) (name tool)) (ts ++ tool :: later)%list).
      rewrite Ht. exact IH. }
  unfold Orchestrator._call_mcp_tool, Orchestrator.load_mcp_tools. rewrite Hs.
  unfold mbind, M_bind, log, mret, M_ret, Orchestrator.await_ainvoke. simpl.
  rewrite Hfind. simpl. destruct (ainvoke tool args f) as [[v|e] f']; reflexivity.
Qed.

Lemma first_matching_tool_wins_witness :
  let servers : Servers :=
    fun _ => Some ([Scenario.canned "generate_plan" (VStr "plan")]
                   ++ Scenario.canned "review_code" (VStr "first")
                   :: [Scenario.canned "review_code" (VStr "second")])%list in
  Orchestrator._call_mcp_tool servers "server.py" "review_code" [] Missing
  = mkOut (Return (VStr "first")) Missing
          [Called "server.py" "review_code" []; ServerStarted "server.py";
           ToolInvoked "server.py" "review_code" [] (Return (VStr "first"))].
Proof.
  intros servers.
  apply (first_matching_tool_wins servers "server.py" [] Missing
           [Scenario.canned "generate_plan" (VStr "plan")]
           [Scenario.canned "review_code" (VStr "second")]
           (Scenario.canned "review_code" (VStr "first"))).
  - reflexivity.
  - repeat constructor. discriminate.
Defined.

(** ** The front-end handler *)

(** X14: the front-end handler raises [gr.Error] and nothing else: the
    validation message for a blank description, and otherwise
    [Generation failed:] followed by the message of what the pipeline raised. *)
Theorem handler_raises_only_gr_error
    (BASE_DIR : string) (servers : Servers) (timestamp description : string)
    (f : UsageFile) (e : Exn) :
  result (GradioApp.generate_app_and_tests BASE_DIR servers timestamp description f)
  = Raise e ->
  (PyStr.all_space description
   /\ e = gr_Error "Please enter a description for the desired application.")
  \/ (~ PyStr.all_space description
      /\ exists e',
           result (Orchestrator.run_pipeline BASE_DIR servers timestamp
                     (PyStr.strip description) f) = Raise e'
           /\ e = gr_Error ("Generation failed: " +:+ exn_str e')).
Proof.
  unfold GradioApp.generate_app_and_tests.
  destruct (PyStr.truthy (PyStr.strip description)) eqn:Hs.
  - assert (PyStr.truthy description = true) as ->.
    { destruct description; [discriminate Hs | done]. }
    apply truthy_strip_true in Hs. simpl. unfold try_except.
    destruct (result (Orchestrator.run_pipeline _ _ _ _ _)) as [v|e'] eqn:Hr.
    + rewrite Hr. discriminate.
    + simpl. intros [= <-]. right. eauto.
  - apply truthy_strip in Hs. rewrite orb_true_r. simpl. intros [= <-]. by left.
Qed.

Lemma handler_raises_only_gr_error_witness :
  (PyStr.all_space "  x "
   /\ gr_Error ("Generation failed: " +:+ "/srv/app/mcp_servers/refinement_server.py")
      = gr_Error "Please enter a description for the desired application.")
  \/ (~ PyStr.all_space "  x "
      /\ exists e',
           result (Orchestrator.run_pipeline Scenario.base_dir (fun _ => None)
                     Scenario.stamp (PyStr.strip "  x ") Missing) = Raise e'
           /\ gr_Error ("Generation failed: " +:+ "/srv/app/mcp_servers/refinement_server.py")
              = gr_Error ("Generation failed: " +:+ exn_str e')).
Proof.
  apply (handler_raises_only_gr_error Scenario.base_dir (fun _ => None)
           Scenario.stamp "  x " Missing).
  reflexivity.
Defined.

(** X15: when the handler returns, the description was not blank and the
    whole outcome is that of the pipeline run on the stripped description. *)
Theorem handler_returns_what_pipeline_returns
    (BASE_DIR : string) (servers : Servers) (timestamp description : string)
    (f : UsageFile) (v : string * Usage) :
  result (GradioApp.generate_app_and_tests BASE_DIR servers timestamp description f)
  = Return v ->
  ~ PyStr.all_space description
  /\ GradioApp.generate_app_and_tests BASE_DIR servers timestamp description f
     = Orchestrator.run_pipeline BASE_DIR servers timestamp (PyStr.strip description) f.
Proof.
  unfold GradioApp.generate_app_and_tests.
  destruct (PyStr.truthy (PyStr.strip description)) eqn:Hs.
  - assert (PyStr.truthy description = true) as ->.
    { destruct description; [discriminate Hs | done]. }
    apply truthy_strip_true in Hs. simpl. unfold try_except.
    destruct (result (Orchestrator.run_pipeline _ _ _ _ _)) as [v'|e'] eqn:Hr.
    + rewrite Hr. done.
    + simpl. discriminate.
  - rewrite orb_true_r. simpl. discriminate.
Qed.

Lemma handler_returns_what_pipeline_returns_witness :
  let servers := Scenario.stub_servers (VStr "plan") (VStr "app") (VStr "tests")
                   (VStr "Fine. OK_TO_USE") (VStr "better app") in
  ~ PyStr.all_space " Track steps "
  /\ GradioApp.generate_app_and_tests Scenario.base_dir servers Scenario.stamp
       " Track steps " Missing
     = Orchestrator.run_pipeline Scenario.base_dir servers Scenario.stamp
         (PyStr.strip " Track steps ") Missing.
Proof.
  intros servers.
  apply (handler_returns_what_pipeline_returns Scenario.base_dir servers Scenario.stamp
           " Track steps " Missing
           ("/srv/app/generated_output/generated_app_20250101_120000.zip", ∅)).
  reflexivity.
Defined.

(** X16: whitespace around the description makes no difference to the
    handler. *)
Theorem handler_ignores_outer_whitespace
    (BASE_DIR : string) (servers : Servers) (timestamp description : string)
    (f : UsageFile) :
  GradioApp.generate_app_and_tests BASE_DIR servers timestamp (PyStr.strip description) f
  = GradioApp.generate_app_and_tests BASE_DIR servers timestamp description f.
Proof.
  unfold GradioApp.generate_app_and_tests. rewrite strip_strip.
  destruct description as [|c d]; [reflexivity|].
  destruct (PyStr.truthy (PyStr.strip (String c d))); reflexivity.
Qed.

Section RealServersMore.
Import ModelTracker McpServers.
Variable ChatGoogleGenerativeAI : string -> Result LLM.
Variables plan_i review_i refine_i codegen_i testgen_i : string.
Variable BASE_DIR : string.

Local Abbreviation the_servers :=
  (McpServers.servers ChatGoogleGenerativeAI
     plan_i review_i refine_i codegen_i testgen_i BASE_DIR).

(** Cleaning up what [call_shape] says about a call to one of the three
    servers: the server is there and has the tool. *)
Ltac real_servers :=
  repeat match goal with
         | H : McpServers.servers _ _ _ _ _ _ _ (Orchestrator.refinement_server _) = _ |- _ =>
             rewrite servers_refinement in H; first [discriminate H | injection H as <-]
         | H : McpServers.servers _ _ _ _ _ _ _ (Orchestrator.codegen_server _) = _ |- _ =>
             rewrite servers_codegen in H; first [discriminate H | injection H as <-]
         | H : McpServers.servers _ _ _ _ _ _ _ (Orchestrator.testgen_server _) = _ |- _ =>
             rewrite servers_testgen in H; first [discriminate H | injection H as <-]
         end;
  try match goal with
      | H : ~ In _ (map name _) |- _ => exfalso; apply H; simpl; tauto
      end;
  repeat match goal with
         | Hin : In ?tool _, Hn : name ?tool = _ |- _ =>
             simpl in Hin;
             repeat match type of Hin with
                    | _ \/ _ => destruct Hin as [Hin|Hin]
                    end;
             try contradiction; subst tool; try discriminate Hn; clear Hn
         end.


Variables (timestamp description : string) (f : UsageFile).



(** What one tool call that returned has written, when the model is there. *)
Ltac recorded_calls Hllm :=
  repeat match goal with
         | H : ainvoke _ _ _ = (Return _, _) |- _ =>
             cbv [ainvoke tool1 tool2 arg find fst snd String.eqb Ascii.eqb Bool.eqb
                  fmap option_fmap option_map generate_plan review_code refine_code
                  generate_app_code generate_tests call_llm _get_llm] in H;
             rewrite Hllm in H;
             cbv [Tracking.invoke deliver default from_option id] in H;
             match type of H with
             | context [super_invoke ?l ?p] => destruct (super_invoke l p) eqn:?
             end;
             first [discriminate H | injection H as _ <-]
         end.

(** The ledger file after a run that refined and packaged: five updates
    of the file the run started from. *)
Lemma refined_run_file (llm : LLM) (zip_path : string) (usage : Usage) :
  ChatGoogleGenerativeAI "gemini-2.5-flash" = Return llm ->
  let o := Orchestrator.run_pipeline BASE_DIR the_servers timestamp description f in
  result o = Return (zip_path, usage) ->
  Trace.calls_to "refine_code" (trace o) <> [] ->
  exists k1 k2 k3 k4 k5,
    usage = _load_usage
      (_update_usage "RefinementAgent" (model llm) k5
         (_update_usage "UnknownAgent" (model llm) k4
            (_update_usage "TestGenerator" (model llm) k3
               (_update_usage "CodeGenerator" (model llm) k2
                  (_update_usage "UnknownAgent" (model llm) k1 f))))).
Proof.
  intros Hllm. name_run o Ho.
  run_cases Ho ltac:(subst o; simpl; intros Hres Hrefine;
    first [ discriminate Hres | congruence
          | injection Hres as _ <-; real_servers; recorded_calls Hllm;
            eexists _, _, _, _, _; reflexivity ]).
Qed.

(** X19: a complete run that refines records five calls on a ledger that
    was empty: two under the shared entry of plan and review, one each for
    generate and test, and one under [RefinementAgent] for the refine call. *)
Theorem refined_run_usage_counts (llm : LLM) (zip_path : string) (usage : Usage) :
  ChatGoogleGenerativeAI "gemini-2.5-flash" = Return llm ->
  _load_usage f = ∅ ->
  let o := Orchestrator.run_pipeline BASE_DIR the_servers timestamp description f in
  result o = Return (zip_path, usage) ->
  Trace.calls_to "refine_code" (trace o) <> [] ->
  total_calls usage = 5
  /\ numApiCalls <$> entry usage "UnknownAgent" (model llm) = Some 2
  /\ numApiCalls <$> entry usage "CodeGenerator" (model llm) = Some 1
  /\ numApiCalls <$> entry usage "TestGenerator" (model llm) = Some 1
  /\ numApiCalls <$> entry usage "RefinementAgent" (model llm) = Some 1.
Proof.
  intros Hllm Hempty o Hres Hrefine.
  destruct (refined_run_file llm zip_path usage Hllm Hres Hrefine)
    as (k1 & k2 & k3 & k4 & k5 & ->).
  split; [|split; [|split; [|split]]].
  - rewrite !total_calls_update, Hempty, total_calls_empty. reflexivity.
  - rewrite entry_update_other by congruence.
    rewrite entry_update_same.
    rewrite !entry_update_other by congruence.
    rewrite entry_update_same, Hempty. reflexivity.
  - rewrite !entry_update_other by congruence.
    rewrite entry_update_same.
    rewrite !entry_update_other by congruence.
    rewrite Hempty. reflexivity.
  - rewrite !entry_update_other by congruence.
    rewrite entry_update_same.
    rewrite !entry_update_other by congruence.
    rewrite Hempty. reflexivity.
  - rewrite entry_update_same.
    rewrite !entry_update_other by congruence.
    rewrite Hempty. reflexivity.
Qed.

(** X20: the three tools that take the description strip it: whitespace
    around it makes no difference to what they do. *)
Theorem tools_ignore_outer_whitespace (g : UsageFile) (app_code : string)
    (plan : option string) :
  generate_plan ChatGoogleGenerativeAI plan_i (PyStr.strip description) g
  = generate_plan ChatGoogleGenerativeAI plan_i description g
  /\ generate_app_code ChatGoogleGenerativeAI codegen_i (PyStr.strip description) plan g
     = generate_app_code ChatGoogleGenerativeAI codegen_i description plan g
  /\ generate_tests ChatGoogleGenerativeAI testgen_i app_code (PyStr.strip description) g
     = generate_tests ChatGoogleGenerativeAI testgen_i app_code description g.
Proof.
  unfold generate_plan, generate_app_code, generate_tests.
  by rewrite !strip_strip.
Qed.

End RealServersMore.

Lemma returned_run_data_flow_witness :
  let o := Orchestrator.run_pipeline Scenario.base_dir
             (Scenario.stub_servers (VInt 7) (VStr "app") (VStr "tests")
                (VStr "needs work") (VStr "better app"))
             Scenario.stamp Scenario.steps Missing in
  exists plan app_code tests_code feedback,
    Trace.results_of "generate_plan" (trace o) = [Return plan]
    /\ Trace.results_of "generate_app_code" (trace o) = [Return app_code]
    /\ Trace.results_of "generate_tests" (trace o) = [Return tests_code]
    /\ Trace.results_of "review_code" (trace o) = [Return feedback]
    /\ TraceAll.called (trace o)
       = ([ (Orchestrator.refinement_server Scenario.base_dir, "generate_plan",
            [("description", Scenario.steps)]);
           (Orchestrator.codegen_server Scenario.base_dir, "generate_app_code",
            [("description", Scenario.steps); ("plan", Orchestrator.as_text plan)]);
           (Orchestrator.testgen_server Scenario.base_dir, "generate_tests",
            [("app_code", Orchestrator.as_text app_code); ("description", Scenario.steps)]);
           (Orchestrator.refinement_server Scenario.base_dir, "review_code",
            [("app_code", Orchestrator.as_text app_code);
             ("tests", Orchestrator.as_text tests_code)]) ]
         ++ (if PyStr.contains "OK_TO_USE" (Orchestrator.as_text feedback) then []
             else [ (Orchestrator.refinement_server Scenario.base_dir, "refine_code",
                     [("app_code", Orchestrator.as_text app_code);
                      ("feedback", Orchestrator.as_text feedback)]) ]))%list.
Proof.
  apply (returned_run_data_flow Scenario.base_dir
           (Scenario.stub_servers (VInt 7) (VStr "app") (VStr "tests")
              (VStr "needs work") (VStr "better app"))
           Scenario.stamp Scenario.steps Missing
           "/srv/app/generated_output/generated_app_20250101_120000.zip" ∅).
  reflexivity.
Defined.

Lemma tool_exception_propagates_witness :
  let servers : Servers :=
    fun _ => Some [Scenario.canned "generate_plan" (VStr "plan");
                   Scenario.canned "generate_app_code" (VStr "app");
                   mkTool "generate_tests"
                     (fun _ f => (Raise (ToolException "quota exceeded"), f))] in
  let o := Orchestrator.run_pipeline Scenario.base_dir servers
             Scenario.stamp Scenario.steps Missing in
  let raised := ToolInvoked (Orchestrator.testgen_server Scenario.base_dir)
                  "generate_tests"
                  [("app_code", "app"); ("description", Scenario.steps)]
                  (Raise (ToolException "quota exceeded")) in
  result o = Raise (ToolException "quota exceeded")
  /\ last (trace o) = Some raised
  /\ TraceAll.raised (trace o) = [ToolException "quota exceeded"].
Proof.
  intros servers o raised.
  apply (tool_exception_propagates Scenario.base_dir servers Scenario.stamp
           Scenario.steps Missing (Orchestrator.testgen_server Scenario.base_dir)
           "generate_tests" [("app_code", "app"); ("description", Scenario.steps)]
           (ToolException "quota exceeded")).
  simpl. do 8 right. left. reflexivity.
Defined.

Lemma transport_failure_aborts_witness :
  let o := Orchestrator.run_pipeline Scenario.base_dir (fun _ => None)
             Scenario.stamp Scenario.steps Missing in
  let s := Orchestrator.refinement_server Scenario.base_dir in
  result o = Raise (TransportError s)
  /\ last (trace o) = Some (Called s "generate_plan" [("description", Scenario.steps)])
  /\ Trace.packaged (trace o) = [].
Proof.
  intros o s.
  apply (transport_failure_aborts Scenario.base_dir (fun _ => None) Scenario.stamp
           Scenario.steps Missing s "generate_plan" [("description", Scenario.steps)]).
  - reflexivity.
  - left. reflexivity.
Defined.

Lemma pipeline_never_writes_ledger_witness :
  file_after
    (Orchestrator.run_pipeline Scenario.base_dir
       (Scenario.stub_servers (VStr "plan") (VStr "app") (VStr "tests")
          (VStr "needs work") (VStr "better app"))
       Scenario.stamp Scenario.steps (Unparseable "{not json"))
  = Unparseable "{not json".
Proof.
  apply (pipeline_never_writes_ledger Scenario.base_dir
           (Scenario.stub_servers (VStr "plan") (VStr "app") (VStr "tests")
              (VStr "needs work") (VStr "better app"))
           Scenario.stamp Scenario.steps (Unparseable "{not json")).
  intros s tools tool args g [= <-] Hin.
  simpl in Hin. destruct Hin as [<-|[<-|[<-|[<-|[<-|[]]]]]]; reflexivity.
Defined.



Lemma refined_run_usage_counts_witness :
  let usage := ModelTracker.get_model_usage (file_after
                 (Orchestrator.run_pipeline Scenario.base_dir
                    (Scenario.stub_llm_servers "needs work" Scenario.base_dir)
                    Scenario.stamp Scenario.steps Missing)) in
  ModelTracker.total_calls usage = 5
  /\ numApiCalls <$> ModelTracker.entry usage "UnknownAgent" "gemini-2.5-flash" = Some 2
  /\ numApiCalls <$> ModelTracker.entry usage "CodeGenerator" "gemini-2.5-flash" = Some 1
  /\ numApiCalls <$> ModelTracker.entry usage "TestGenerator" "gemini-2.5-flash" = Some 1
  /\ numApiCalls <$> ModelTracker.entry usage "RefinementAgent" "gemini-2.5-flash" = Some 1.
Proof.
  intros usage.
  apply (refined_run_usage_counts (Scenario.stub_llm "needs work")
           "plan" "review" "refine" "codegen" "testgen"
           Scenario.base_dir Scenario.stamp Scenario.steps Missing
           (mkLLM "gemini-2.5-flash" (fun _ =>
              Return (ModelTracker.mkResult (ModelTracker.ContentStr "needs work") "")))
           "/srv/app/generated_output/generated_app_20250101_120000.zip" usage).
  - reflexivity.
  - reflexivity.
  - vm_compute. reflexivity.
  - vm_compute. discriminate.
Defined.
